(** * Client connection bootstrap of libtls-bearssl (tls_client.c)

    A shallow embedding of [tls_client.c]: the session object [struct tls],
    the calls the file makes into the C library, the socket layer, BearSSL
    and the rest of libtls, and the five entry points
    [tls_connect], [tls_connect_servername], [tls_connect_socket],
    [tls_connect_fds], [tls_connect_cbs] with their shared helper
    [tls_connect_common].

    Conventions.
    - A C string is a [string]: the characters before the terminating NUL.
      A [const char *] that may be NULL is an [option string].
    - [int] and flag words are [Z]; [size_t] is [nat].
    - The session [*ctx] is one component of the machine state; every
      function that takes [struct tls *ctx] in C works on that component.
    - Calls that leave the file are answered by the [platform]: the n-th
      external call of a run gets the platform's answer number n. *)

From Stdlib Require Import ZArith List String Ascii Bool Lia Arith.
Import ListNotations.
Local Open Scope string_scope.
Local Open Scope list_scope.
Local Open Scope Z_scope.

(** ** Data model *)

(** [struct tls_error]: the message and, for [tls_set_error], the [errno]
    that was current when the error was recorded. *)
Record tls_error := mk_error {
  err_msg : string;
  err_num : option Z
}.

(** [struct tls_keypair], the fields [tls_connect_common] reads. Certificate
    chain and private keys are opaque handles. *)
Record tls_keypair := mk_keypair {
  key_type : Z;
  chain : Z;
  chain_len : Z;
  key_rsa : Z;
  key_ec : Z;
  signer_key_type : Z
}.

(** [struct tls_config], the fields [tls_connect_common] reads. *)
Record tls_config := mk_config {
  ocsp_require_stapling : Z;
  verify_name : Z;
  keypair : option tls_keypair
}.

(** Signature implementations handed to BearSSL. *)
Inductive br_signer :=
| br_rsa_pkcs1_sign_default
| br_ecdsa_sign_asn1_default.

(** What [br_ssl_client_set_single_rsa] / [br_ssl_client_set_single_ec]
    installed in the client context. *)
Inductive br_client_key :=
| SingleRSA (chain chain_len sk : Z) (irsasign : br_signer)
| SingleEC (chain chain_len sk allowed_usages cert_issuer_key_type : Z)
           (iecdsa : br_signer).

(** [br_ssl_client_context] as far as this file configures it.
    [cc_reset] is [Some sni] once [br_ssl_client_reset] was called with
    server name [sni]. *)
Record br_ssl_client_context := mk_client {
  cc_default_rsapub : bool;
  cc_single_key : option br_client_key;
  cc_reset : option (option string)
}.

(** [struct tls_conn]: the engine-owned connection object; [conn_id] is the
    identity of the allocation. *)
Record tls_conn := mk_conn {
  conn_id : nat;
  client : br_ssl_client_context
}.

(** Function pointers stored in [read_cb] / [write_cb]. *)
Inductive callback :=
| tls_fd_read_cb
| tls_fd_write_cb
| user_cb (fn : Z).

(** [struct tls], the fields this file touches. *)
Record tls := mk_tls {
  flags : Z;
  state : Z;
  config : tls_config;
  error : option tls_error;
  servername : option string;
  conn : option tls_conn;
  socket : Z;
  fd_read : Z;
  fd_write : Z;
  read_cb : option callback;
  write_cb : option callback;
  cb_arg : option Z
}.

Definition set_state (v : Z) (c : tls) : tls :=
  mk_tls (flags c) v (config c) (error c) (servername c) (conn c) (socket c)
         (fd_read c) (fd_write c) (read_cb c) (write_cb c) (cb_arg c).
Definition set_error (v : option tls_error) (c : tls) : tls :=
  mk_tls (flags c) (state c) (config c) v (servername c) (conn c) (socket c)
         (fd_read c) (fd_write c) (read_cb c) (write_cb c) (cb_arg c).
Definition set_servername (v : option string) (c : tls) : tls :=
  mk_tls (flags c) (state c) (config c) (error c) v (conn c) (socket c)
         (fd_read c) (fd_write c) (read_cb c) (write_cb c) (cb_arg c).
Definition set_conn (v : option tls_conn) (c : tls) : tls :=
  mk_tls (flags c) (state c) (config c) (error c) (servername c) v (socket c)
         (fd_read c) (fd_write c) (read_cb c) (write_cb c) (cb_arg c).
Definition set_socket (v : Z) (c : tls) : tls :=
  mk_tls (flags c) (state c) (config c) (error c) (servername c) (conn c) v
         (fd_read c) (fd_write c) (read_cb c) (write_cb c) (cb_arg c).
Definition set_fd_read (v : Z) (c : tls) : tls :=
  mk_tls (flags c) (state c) (config c) (error c) (servername c) (conn c)
         (socket c) v (fd_write c) (read_cb c) (write_cb c) (cb_arg c).
Definition set_fd_write (v : Z) (c : tls) : tls :=
  mk_tls (flags c) (state c) (config c) (error c) (servername c) (conn c)
         (socket c) (fd_read c) v (read_cb c) (write_cb c) (cb_arg c).
Definition set_read_cb (v : option callback) (c : tls) : tls :=
  mk_tls (flags c) (state c) (config c) (error c) (servername c) (conn c)
         (socket c) (fd_read c) (fd_write c) v (write_cb c) (cb_arg c).
Definition set_write_cb (v : option callback) (c : tls) : tls :=
  mk_tls (flags c) (state c) (config c) (error c) (servername c) (conn c)
         (socket c) (fd_read c) (fd_write c) (read_cb c) v (cb_arg c).
Definition set_cb_arg (v : option Z) (c : tls) : tls :=
  mk_tls (flags c) (state c) (config c) (error c) (servername c) (conn c)
         (socket c) (fd_read c) (fd_write c) (read_cb c) (write_cb c) v.

(** [struct addrinfo]; the [ai_next] chain is a [list addrinfo], the socket
    address is its bytes ([ai_addrlen] is their number). *)
Record addrinfo := mk_addrinfo {
  ai_flags : Z;
  ai_family : Z;
  ai_socktype : Z;
  ai_protocol : Z;
  ai_addr : list Z
}.

(** [memset(&hints, 0, sizeof(hints))]. *)
Definition hints_zero : addrinfo := mk_addrinfo 0 0 0 0 [].

Definition set_ai_flags (v : Z) (a : addrinfo) : addrinfo :=
  mk_addrinfo v (ai_family a) (ai_socktype a) (ai_protocol a) (ai_addr a).
Definition set_ai_family (v : Z) (a : addrinfo) : addrinfo :=
  mk_addrinfo (ai_flags a) v (ai_socktype a) (ai_protocol a) (ai_addr a).
Definition set_ai_socktype (v : Z) (a : addrinfo) : addrinfo :=
  mk_addrinfo (ai_flags a) (ai_family a) v (ai_protocol a) (ai_addr a).

(** ** The platform

    Constants of headers that are not part of [tls_client.c], and the answers
    of the functions it calls outside the file. An answer is indexed by the
    number of the external call within the run ([clock] below), so two calls
    with the same arguments may be answered differently. A failing system call
    answers [-1] together with the [errno] it sets. *)
Record platform := mk_platform {
  (* tls_internal.h *)
  c_TLS_CLIENT : Z;
  c_TLS_CONNECTED : Z;
  (* bearssl.h *)
  c_BR_KEYTYPE_RSA : Z;
  c_BR_KEYTYPE_EC : Z;
  c_BR_KEYTYPE_SIGN : Z;
  (* sys/socket.h, netdb.h *)
  c_AF_INET : Z;
  c_AF_INET6 : Z;
  c_AF_UNSPEC : Z;
  c_AI_NUMERICHOST : Z;
  c_AI_ADDRCONFIG : Z;
  c_SOCK_STREAM : Z;
  (* libc *)
  p_inet_pton : Z -> string -> Z;
  p_gai_strerror : Z -> string;
  p_strdup : nat -> string -> bool;
  p_getaddrinfo : nat -> string -> option string -> addrinfo -> Z * list addrinfo;
  p_socket : nat -> Z -> Z -> Z -> Z * Z;
  p_connect : nat -> Z -> list Z -> Z * Z;
  (* libtls, outside tls_client.c *)
  p_tls_host_port : nat -> string -> Z * option string * option string;
  p_tls_conn_new : nat -> bool * option tls_error;
  p_tls_configure_x509 : nat -> Z * option tls_error
}.

(** ** Machine state and observable events *)

Inductive event :=
| EvGetaddrinfo (node : string) (service : option string) (hints : addrinfo)
                (ret : Z)
| EvSocket (domain type protocol : Z) (ret : Z) (err : Z)
| EvConnect (fd : Z) (addr : list Z) (ret : Z) (err : Z)
| EvClose (fd : Z)
| EvFreeaddrinfo
| EvConnNew (ret : option nat)
| EvConnFree (id : nat)
| EvConfigureX509 (ret : Z).

(** [errno] is followed through [socket] and [connect], the two calls after
    which the file reads it ([tls_set_error], lines 133 and 137). What
    [strdup], [getaddrinfo] and [tls_host_port] leave in it is not modelled:
    the model keeps the old value there, and it is never read before
    [socket] or [connect] has written it again. *)
Record machine := mk_machine {
  ctx : tls;
  clock : nat;
  errno : Z;
  trace : list event
}.

Definition upd_ctx (f : tls -> tls) (m : machine) : machine :=
  mk_machine (f (ctx m)) (clock m) (errno m) (trace m).
Definition next_clock (m : machine) : machine :=
  mk_machine (ctx m) (S (clock m)) (errno m) (trace m).
Definition set_errno (e : Z) (m : machine) : machine :=
  mk_machine (ctx m) (clock m) e (trace m).
Definition log (e : event) (m : machine) : machine :=
  mk_machine (ctx m) (clock m) (errno m) (trace m ++ [e]).

(** Descriptors that [socket] returned and [close] has not closed, in the
    order they were opened. *)
Fixpoint remove_fd (fd : Z) (l : list Z) : list Z :=
  match l with
  | [] => []
  | x :: l' => if x =? fd then l' else x :: remove_fd fd l'
  end.

Definition open_step (fds : list Z) (e : event) : list Z :=
  match e with
  | EvSocket _ _ _ ret _ => if ret =? -1 then fds else fds ++ [ret]
  | EvClose fd => remove_fd fd fds
  | _ => fds
  end.

Definition open_fds (tr : list event) : list Z := fold_left open_step tr [].

(** Connection objects that [tls_conn_new] allocated and [tls_conn_free] has
    not released. [tls_client.c] never calls [tls_conn_free]; the event is
    what the teardown path of tls.c would log. *)
Definition live_step (ids : list nat) (e : event) : list nat :=
  match e with
  | EvConnNew (Some id) => ids ++ [id]
  | EvConnFree id => List.remove Nat.eq_dec id ids
  | _ => ids
  end.

Definition live_conns (tr : list event) : list nat := fold_left live_step tr [].

(** ** Control flow

    A statement runs on the machine and either falls through with a value or
    jumps to the function's [err:] label ([None]). *)
Definition M (A : Type) : Type := machine -> option A * machine.

Definition ret {A} (a : A) : M A := fun m => (Some a, m).
Definition goto_err {A} : M A := fun m => (None, m).
Definition bind {A B} (c : M A) (k : A -> M B) : M B :=
  fun m => match c m with
           | (Some a, m') => k a m'
           | (None, m') => (None, m')
           end.

Declare Scope tls_scope.
Delimit Scope tls_scope with tls.
Notation "x <- c ;; k" := (bind c (fun x => k))
  (at level 61, c at next level, right associativity) : tls_scope.
Notation "c ;; k" := (bind c (fun _ => k))
  (at level 61, right associativity) : tls_scope.
Local Open Scope tls_scope.

Definition get_ctx : M tls := fun m => (Some (ctx m), m).
Definition modify_ctx (f : tls -> tls) : M unit :=
  fun m => (Some tt, upd_ctx f m).
Definition tick : M nat := fun m => (Some (clock m), next_clock m).
Definition emit (e : event) : M unit := fun m => (Some tt, log e m).

(** A C function whose body may [goto err]: [rv] is [-1] at every jump in
    this file, the body's own value is [rv] when control reaches the label by
    falling through, and [cleanup] is the code after the label. *)
Definition c_function (body : M Z) (cleanup : machine -> machine)
  : machine -> Z * machine :=
  fun m => match body m with
           | (Some rv, m') => (rv, cleanup m')
           | (None, m') => (-1, cleanup m')
           end.

(** Calling such a function from another body. *)
Definition call {A} (f : machine -> A * machine) : M A :=
  fun m => let (a, m') := f m in (Some a, m').

(** [strlen], indexing and truncation of a C string. *)
Definition strlen (s : string) : nat := String.length s.
Definition char_at (s : string) (i : nat) : option ascii := String.get i s.
(** Writing NUL at index [i] (with [i < strlen s]) leaves the first [i]
    characters. *)
Definition truncate_at (s : string) (i : nat) : string := String.substring 0 i s.

Definition is_dot (c : option ascii) : bool :=
  match c with
  | Some c => Ascii.eqb c "."%char
  | None => false
  end.

(** Lines 194-197: the trailing dot, if there is one, is overwritten by
    NUL. *)
Definition strip_dot (d : string) : string :=
  let servername_len := strlen d in
  if (0 <? servername_len)%nat && is_dot (char_at d (servername_len - 1))
  then truncate_at d (servername_len - 1)
  else d.

(** Modelled from the spec: [tls_set_errorx] and [tls_set_error] live in
    tls.c, which is not under src/; the spec only says that a descriptive
    error is attached to the session. [tls_set_errorx] stores the formatted
    message, [tls_set_error] the message with the current [errno]. *)
Definition tls_set_errorx (msg : string) : M unit :=
  modify_ctx (set_error (Some (mk_error msg None))).
Definition tls_set_error (msg : string) : M unit :=
  fun m => (Some tt, upd_ctx (set_error (Some (mk_error msg (Some (errno m))))) m).

Section Client.

Variable pf : platform.

Local Abbreviation TLS_CLIENT := (c_TLS_CLIENT pf).
Local Abbreviation TLS_CONNECTED := (c_TLS_CONNECTED pf).
Local Abbreviation BR_KEYTYPE_RSA := (c_BR_KEYTYPE_RSA pf).
Local Abbreviation BR_KEYTYPE_EC := (c_BR_KEYTYPE_EC pf).
Local Abbreviation BR_KEYTYPE_SIGN := (c_BR_KEYTYPE_SIGN pf).
Local Abbreviation AF_INET := (c_AF_INET pf).
Local Abbreviation AF_INET6 := (c_AF_INET6 pf).
Local Abbreviation AF_UNSPEC := (c_AF_UNSPEC pf).
Local Abbreviation AI_NUMERICHOST := (c_AI_NUMERICHOST pf).
Local Abbreviation AI_ADDRCONFIG := (c_AI_ADDRCONFIG pf).
Local Abbreviation SOCK_STREAM := (c_SOCK_STREAM pf).
Local Abbreviation inet_pton := (p_inet_pton pf).
Local Abbreviation gai_strerror := (p_gai_strerror pf).

(** *** External calls *)

Definition strdup (s : string) : M (option string) :=
  n <- tick ;;
  ret (if p_strdup pf n s then Some s else None).

Definition getaddrinfo (node : string) (service : option string)
    (hints : addrinfo) : M (Z * list addrinfo) :=
  n <- tick ;;
  let r := p_getaddrinfo pf n node service hints in
  emit (EvGetaddrinfo node service hints (fst r)) ;;
  ret r.

(** [socket], [connect] and [close]; the prefix keeps them apart from the
    [socket] field of the session. *)
Definition sys_socket (domain type protocol : Z) : M Z :=
  n <- tick ;;
  let r := p_socket pf n domain type protocol in
  emit (EvSocket domain type protocol (fst r) (snd r)) ;;
  (fun m => (Some (fst r),
             set_errno (if fst r =? -1 then snd r else errno m) m)).

Definition sys_connect (fd : Z) (addr : list Z) : M Z :=
  n <- tick ;;
  let r := p_connect pf n fd addr in
  emit (EvConnect fd addr (fst r) (snd r)) ;;
  (fun m => (Some (fst r),
             set_errno (if fst r =? -1 then snd r else errno m) m)).

Definition sys_close (fd : Z) : M unit := emit (EvClose fd).

Definition freeaddrinfo : M unit := emit EvFreeaddrinfo.

(** [tls_host_port] lives in tls_util.c; the platform gives its return value
    and the two strings it stores through [&hs] and [&ps]. *)
Definition tls_host_port (host : string)
  : M (Z * option string * option string) :=
  n <- tick ;;
  ret (p_tls_host_port pf n host).

Definition record_error (e : option tls_error) : M unit :=
  modify_ctx (fun c => set_error (match e with
                                  | Some e => Some e
                                  | None => error c
                                  end) c).

(** Modelled from the spec: [tls_conn_new] lives in tls.c, which is not under
    src/; the spec says it allocates the engine-owned connection object and
    may fail. The new object has a fresh identity and an unconfigured client
    context; the helper may record an error of its own. *)
Definition tls_conn_new : M (option tls_conn) :=
  n <- tick ;;
  let r := p_tls_conn_new pf n in
  record_error (snd r) ;;
  emit (EvConnNew (if fst r then Some n else None)) ;;
  ret (if fst r then Some (mk_conn n (mk_client false None None)) else None).

(** Modelled from the spec: [tls_configure_x509] lives outside src/; it
    returns zero on success and may record an error of its own. *)
Definition tls_configure_x509 : M Z :=
  n <- tick ;;
  let r := p_tls_configure_x509 pf n in
  record_error (snd r) ;;
  emit (EvConfigureX509 (fst r)) ;;
  ret (fst r).

(** BearSSL setters on [&ctx->conn->u.client]. *)
Definition on_client (f : br_ssl_client_context -> br_ssl_client_context)
  : M unit :=
  modify_ctx (fun c =>
    set_conn (match conn c with
              | Some cn => Some (mk_conn (conn_id cn) (f (client cn)))
              | None => None
              end) c).

Definition br_ssl_client_set_default_rsapub : M unit :=
  on_client (fun cc => mk_client true (cc_single_key cc) (cc_reset cc)).

Definition br_ssl_client_set_single_rsa (chain chain_len sk : Z)
    (irsasign : br_signer) : M unit :=
  on_client (fun cc =>
    mk_client (cc_default_rsapub cc)
              (Some (SingleRSA chain chain_len sk irsasign)) (cc_reset cc)).

Definition br_ssl_client_set_single_ec
    (chain chain_len sk allowed_usages cert_issuer_key_type : Z)
    (iecdsa : br_signer) : M unit :=
  on_client (fun cc =>
    mk_client (cc_default_rsapub cc)
              (Some (SingleEC chain chain_len sk allowed_usages
                              cert_issuer_key_type iecdsa))
              (cc_reset cc)).

Definition br_ssl_client_reset (server_name : option string) : M unit :=
  on_client (fun cc =>
    mk_client (cc_default_rsapub cc) (cc_single_key cc) (Some server_name)).

(** *** tls_connect_common (lines 169-257) *)

(** Lines 182-209: the value of the local [servername] after the block. *)
Definition canonicalize (servername : option string) : M (option string) :=
  match servername with
  | None => ret None
  | Some s =>
      d <- strdup s ;;
      modify_ctx (set_servername d) ;;
      match d with
      | None => tls_set_errorx "out of memory" ;; goto_err
      | Some d =>
          let d' := strip_dot d in
          modify_ctx (set_servername (Some d')) ;;
          if negb (inet_pton AF_INET d' =? 1)
             && negb (inet_pton AF_INET6 d' =? 1)
          then ret (Some d')
          else ret None
      end
  end.

(** Lines 224-241: the [switch] on the key type has two cases and no
    [default]. *)
Definition bind_keypair : M unit :=
  c <- get_ctx ;;
  match keypair (config c) with
  | Some kp =>
      if key_type kp =? BR_KEYTYPE_RSA then
        br_ssl_client_set_single_rsa (chain kp) (chain_len kp) (key_rsa kp)
          br_rsa_pkcs1_sign_default
      else if key_type kp =? BR_KEYTYPE_EC then
        br_ssl_client_set_single_ec (chain kp) (chain_len kp) (key_ec kp)
          BR_KEYTYPE_SIGN (signer_key_type kp) br_ecdsa_sign_asn1_default
      else ret tt
  | None => ret tt
  end.

Definition tls_connect_common_body (servername : option string) : M Z :=
  c <- get_ctx ;;
  (if Z.land (flags c) TLS_CLIENT =? 0
   then tls_set_errorx "not a client context" ;; goto_err
   else ret tt) ;;
  servername <- canonicalize servername ;;
  (if negb (ocsp_require_stapling (config c) =? 0)
   then tls_set_errorx "OCSP stapling is not supported" ;; goto_err
   else ret tt) ;;
  cn <- tls_conn_new ;;
  modify_ctx (set_conn cn) ;;
  (match cn with None => goto_err | Some _ => ret tt end) ;;
  r <- tls_configure_x509 ;;
  (if negb (r =? 0) then goto_err else ret tt) ;;
  br_ssl_client_set_default_rsapub ;;
  bind_keypair ;;
  (if negb (verify_name (config c) =? 0)
   then match servername with
        | None => tls_set_errorx "server name not specified" ;; goto_err
        | Some _ => ret tt
        end
   else ret tt) ;;
  br_ssl_client_reset servername ;;
  modify_ctx (fun c => set_state (Z.lor (state c) TLS_CONNECTED) c) ;;
  ret 0.

Definition tls_connect_common (servername : option string)
  : machine -> Z * machine :=
  c_function (tls_connect_common_body servername) (fun m => m).

(** *** tls_connect_socket, tls_connect_fds (lines 259-288) *)

Definition tls_connect_fds_body (fd_read fd_write : Z)
    (servername : option string) : M Z :=
  (if (fd_read <? 0) || (fd_write <? 0)
   then tls_set_errorx "invalid file descriptors" ;; goto_err
   else ret tt) ;;
  r <- call (tls_connect_common servername) ;;
  (if negb (r =? 0) then goto_err else ret tt) ;;
  modify_ctx (set_fd_read fd_read) ;;
  modify_ctx (set_read_cb (Some tls_fd_read_cb)) ;;
  modify_ctx (set_fd_write fd_write) ;;
  modify_ctx (set_write_cb (Some tls_fd_write_cb)) ;;
  modify_ctx (set_cb_arg None) ;;
  ret 0.

Definition tls_connect_fds (fd_read fd_write : Z) (servername : option string)
  : machine -> Z * machine :=
  c_function (tls_connect_fds_body fd_read fd_write servername) (fun m => m).

Definition tls_connect_socket (s : Z) (servername : option string)
  : machine -> Z * machine :=
  tls_connect_fds s s servername.

(** *** tls_connect_cbs (lines 290-311) *)

Definition tls_connect_cbs_body (read_cb write_cb : option callback)
    (cb_arg : option Z) (servername : option string) : M Z :=
  r <- call (tls_connect_common servername) ;;
  (if negb (r =? 0) then goto_err else ret tt) ;;
  (match read_cb, write_cb with
   | Some _, Some _ => ret tt
   | _, _ => tls_set_errorx "no callbacks provided" ;; goto_err
   end) ;;
  modify_ctx (set_read_cb read_cb) ;;
  modify_ctx (set_write_cb write_cb) ;;
  modify_ctx (set_cb_arg cb_arg) ;;
  ret 0.

Definition tls_connect_cbs (read_cb write_cb : option callback)
    (cb_arg : option Z) (servername : option string)
  : machine -> Z * machine :=
  c_function (tls_connect_cbs_body read_cb write_cb cb_arg servername)
             (fun m => m).

(** *** tls_connect_servername, tls_connect (lines 55-167) *)

(** Lines 108-126: the three [getaddrinfo] calls on the one [hints]
    structure, which keeps [AI_NUMERICHOST] from the first call to the
    second. The value is [res0]. *)
Definition resolve (h : string) (p : option string) : M (list addrinfo) :=
  let hints := set_ai_socktype SOCK_STREAM hints_zero in
  let hints := set_ai_family AF_INET hints in
  let hints := set_ai_flags AI_NUMERICHOST hints in
  r <- getaddrinfo h p hints ;;
  if negb (fst r =? 0) then
    let hints := set_ai_family AF_INET6 hints in
    r <- getaddrinfo h p hints ;;
    if negb (fst r =? 0) then
      let hints := set_ai_family AF_UNSPEC hints in
      let hints := set_ai_flags AI_ADDRCONFIG hints in
      r <- getaddrinfo h p hints ;;
      let s := fst r in
      if negb (s =? 0) then
        tls_set_errorx (gai_strerror s) ;; goto_err
      else ret (snd r)
    else ret (snd r)
  else ret (snd r).

(** Lines 129-144: the loop over the candidates; [s] is the local [s] on
    entry to the iteration, the value is [s] when the loop is left. *)
Fixpoint connect_loop (res : list addrinfo) (s : Z) : M Z :=
  match res with
  | [] => ret s
  | ai :: res' =>
      s <- sys_socket (ai_family ai) (ai_socktype ai) (ai_protocol ai) ;;
      if s =? -1 then
        tls_set_error "socket" ;;
        connect_loop res' s
      else
        r <- sys_connect s (ai_addr ai) ;;
        if r =? -1 then
          tls_set_error "connect" ;;
          sys_close s ;;
          connect_loop res' (-1)
        else ret s
  end.

Definition tls_connect_servername_body (host : option string)
    (port : option string) (servername : option string) : M Z :=
  c <- get_ctx ;;
  (if Z.land (flags c) TLS_CLIENT =? 0
   then tls_set_errorx "not a client context" ;; goto_err
   else ret tt) ;;
  host <- (match host with
           | None => tls_set_errorx "host not specified" ;; goto_err
           | Some host => ret host
           end) ;;
  hp <- (match port with
         | None =>
             r <- tls_host_port host ;;
             let '(ret_, hs, ps) := r in
             if ret_ =? -1 then
               tls_set_errorx "memory allocation failure" ;; goto_err
             else if negb (ret_ =? 0) then
               tls_set_errorx "no port provided" ;; goto_err
             else ret (hs, ps)
         | Some _ => ret (None, None)
         end) ;;
  let '(hs, ps) := hp in
  let h := match hs with Some hs => hs | None => host end in
  let p := match ps with Some ps => Some ps | None => port end in
  res0 <- resolve h p ;;
  s <- connect_loop res0 (-1) ;;
  freeaddrinfo ;;
  (if s =? -1 then goto_err else ret tt) ;;
  let servername :=
    match servername with Some sn => sn | None => h end in
  r <- call (tls_connect_socket s (Some servername)) ;;
  (if negb (r =? 0) then sys_close s ;; goto_err else ret tt) ;;
  modify_ctx (set_socket s) ;;
  ret 0.

(** [free(hs); free(ps)] after the label release the two strings of
    [tls_host_port]; strings are values here, so nothing is left to do. *)
Definition tls_connect_servername (host : option string)
    (port : option string) (servername : option string)
  : machine -> Z * machine :=
  c_function (tls_connect_servername_body host port servername) (fun m => m).

Definition tls_connect (host : option string) (port : option string)
  : machine -> Z * machine :=
  tls_connect_servername host port None.

End Client.

(** ** A reference platform

    Used to run the model on concrete inputs. Header constants have their
    libtls, BearSSL and Linux values; [inet_pton] follows the BSD libc
    implementation ([inet_pton4], [inet_pton6]) as far as its return value
    goes. None of this is code of [tls_client.c]; the theorems about the
    client hold for every platform. *)
Module Reference.

Definition digit_val (ch : ascii) : option Z :=
  let n := Z.of_nat (nat_of_ascii ch) in
  if (48 <=? n) && (n <=? 57) then Some (n - 48) else None.

Definition is_xdigit (ch : ascii) : bool :=
  let n := Z.of_nat (nat_of_ascii ch) in
  ((48 <=? n) && (n <=? 57)) || ((97 <=? n) && (n <=? 102))
  || ((65 <=? n) && (n <=? 70)).

(** [cur] is [*tp], the octet being read. *)
Fixpoint inet_pton4_loop (src : string) (saw_digit : bool) (octets cur : Z)
  : Z :=
  match src with
  | EmptyString => if octets <? 4 then 0 else 1
  | String ch src' =>
      match digit_val ch with
      | Some d =>
          let new := cur * 10 + d in
          if saw_digit && (cur =? 0) then 0
          else if 255 <? new then 0
          else if negb saw_digit then
            if 4 <? octets + 1 then 0
            else inet_pton4_loop src' true (octets + 1) new
          else inet_pton4_loop src' true octets new
      | None =>
          if Ascii.eqb ch "."%char && saw_digit then
            if octets =? 4 then 0 else inet_pton4_loop src' false octets 0
          else 0
      end
  end.

Definition inet_pton4 (src : string) : Z := inet_pton4_loop src false 0 0.

(** After the loop of [inet_pton6]; [tp] counts the bytes written. *)
Definition inet_pton6_finish (tp : Z) (colonp : option Z) (seen_xdigits : Z)
  : Z :=
  if (0 <? seen_xdigits) && (16 <? tp + 2) then 0
  else
    let tp := if 0 <? seen_xdigits then tp + 2 else tp in
    match colonp with
    | Some _ => if tp =? 16 then 0 else 1
    | None => if tp =? 16 then 1 else 0
    end.

Fixpoint inet_pton6_loop (src curtok : string) (tp : Z) (colonp : option Z)
    (seen_xdigits : Z) : Z :=
  match src with
  | EmptyString => inet_pton6_finish tp colonp seen_xdigits
  | String ch src' =>
      if is_xdigit ch then
        if 4 <? seen_xdigits + 1 then 0
        else inet_pton6_loop src' curtok tp colonp (seen_xdigits + 1)
      else if Ascii.eqb ch ":"%char then
        if seen_xdigits =? 0 then
          match colonp with
          | Some _ => 0
          | None => inet_pton6_loop src' src' tp (Some tp) seen_xdigits
          end
        else match src' with
             | EmptyString => 0
             | _ => if 16 <? tp + 2 then 0
                    else inet_pton6_loop src' src' (tp + 2) colonp 0
             end
      else if Ascii.eqb ch "."%char && (tp + 4 <=? 16)
              && (0 <? inet_pton4 curtok) then
        inet_pton6_finish (tp + 4) colonp 0
      else 0
  end.

Definition inet_pton6 (src : string) : Z :=
  match src with
  | String ":" (String ":" _ as src') => inet_pton6_loop src' src' 0 None 0
  | String ":" _ => 0
  | _ => inet_pton6_loop src src 0 None 0
  end.

Definition inet_pton (af : Z) (src : string) : Z :=
  if af =? 2 then inet_pton4 src
  else if af =? 10 then inet_pton6 src
  else -1.

(** The platform whose library calls answer as given. *)
Definition with_answers
    (strdup_ok : nat -> string -> bool)
    (gai : nat -> string -> option string -> addrinfo -> Z * list addrinfo)
    (sock : nat -> Z -> Z -> Z -> Z * Z)
    (conn : nat -> Z -> list Z -> Z * Z)
    (host_port : nat -> string -> Z * option string * option string)
    (conn_new : nat -> bool * option tls_error)
    (x509 : nat -> Z * option tls_error) : platform :=
  mk_platform 1 2 1 2 32 2 10 0 4 32 1
    inet_pton (fun _ => "resolver error")
    strdup_ok gai sock conn host_port conn_new x509.

(** Every allocation succeeds, nothing resolves and no socket opens. *)
Definition quiet : platform :=
  with_answers (fun _ _ => true) (fun _ _ _ _ => (-2, []))
    (fun _ _ _ _ => (-1, 97)) (fun _ _ _ => (-1, 111))
    (fun _ _ => (1, None, None))
    (fun _ => (true, None)) (fun _ => (0, None)).

(** A candidate address: TCP over IPv4, the address abbreviated to one
    byte. *)
Definition candidate (a : Z) : addrinfo := mk_addrinfo 0 2 1 6 [a].

(** The first [getaddrinfo] gives three candidates; [socket] always opens a
    descriptor; the first [connect] (call number 2) is refused, the next one
    succeeds. *)
Definition second_connects : platform :=
  with_answers (fun _ _ => true)
    (fun _ _ _ _ => (0, [candidate 1; candidate 2; candidate 3]))
    (fun n _ _ _ => (Z.of_nat n + 3, 0))
    (fun n _ _ => if (n =? 2)%nat then (-1, 111) else (0, 0))
    (fun _ _ => (1, None, None))
    (fun _ => (true, None)) (fun _ => (0, None)).

(** The first [getaddrinfo] gives two candidates; [socket] always opens a
    descriptor; every [connect] fails, with an [errno] that tells the calls
    apart. *)
Definition none_connects : platform :=
  with_answers (fun _ _ => true)
    (fun _ _ _ _ => (0, [candidate 1; candidate 2]))
    (fun n _ _ _ => (Z.of_nat n + 3, 0))
    (fun n _ _ => (-1, 100 + Z.of_nat n))
    (fun _ _ => (1, None, None))
    (fun _ => (true, None)) (fun _ => (0, None)).

Definition no_keys : tls_config := mk_config 0 0 None.
Definition verifying : tls_config := mk_config 0 1 None.
Definition rsa_key : tls_config :=
  mk_config 0 0 (Some (mk_keypair 1 100 1 200 300 0)).
Definition ec_key : tls_config :=
  mk_config 0 0 (Some (mk_keypair 2 100 1 200 300 1)).
(** A keypair whose key type is neither [BR_KEYTYPE_RSA] (1) nor
    [BR_KEYTYPE_EC] (2). *)
Definition odd_key : tls_config :=
  mk_config 0 0 (Some (mk_keypair 7 100 1 200 300 0)).

(** A session as [tls_client] returns it, with the given configuration. *)
Definition client_session (cfg : tls_config) : tls :=
  mk_tls 1 0 cfg None None None (-1) (-1) (-1) None None None.

Definition boot (cfg : tls_config) : machine :=
  mk_machine (client_session cfg) 0 0 [].

End Reference.


(** ** Vocabulary of the statements *)

Section Observations.

Variable pf : platform.

Local Abbreviation TLS_CLIENT := (c_TLS_CLIENT pf).
Local Abbreviation BR_KEYTYPE_RSA := (c_BR_KEYTYPE_RSA pf).
Local Abbreviation BR_KEYTYPE_EC := (c_BR_KEYTYPE_EC pf).
Local Abbreviation BR_KEYTYPE_SIGN := (c_BR_KEYTYPE_SIGN pf).
Local Abbreviation AF_INET := (c_AF_INET pf).
Local Abbreviation AF_INET6 := (c_AF_INET6 pf).
Local Abbreviation AF_UNSPEC := (c_AF_UNSPEC pf).
Local Abbreviation AI_NUMERICHOST := (c_AI_NUMERICHOST pf).
Local Abbreviation AI_ADDRCONFIG := (c_AI_ADDRCONFIG pf).
Local Abbreviation SOCK_STREAM := (c_SOCK_STREAM pf).
Local Abbreviation inet_pton := (p_inet_pton pf).

(** A literal address, as lines 203-204 test it: [inet_pton] accepts the
    string for [AF_INET] or for [AF_INET6]. *)
Definition is_literal (s : string) : bool :=
  (inet_pton AF_INET s =? 1) || (inet_pton AF_INET6 s =? 1).

(** The server name lines 182-209 leave in the local [servername]. *)
Definition sni_of (sn : option string) : option string :=
  match sn with
  | None => None
  | Some s => if is_literal (strip_dot s) then None else Some (strip_dot s)
  end.

(** The session's [servername] field once lines 182-209 went through. *)
Definition servername_after (sn : option string) (c : tls) : option string :=
  match sn with
  | None => servername c
  | Some s => Some (strip_dot s)
  end.

(** What lines 224-241 install for the configured keypair. *)
Definition installed_key (kp : option tls_keypair) : option br_client_key :=
  match kp with
  | None => None
  | Some kp =>
      if key_type kp =? BR_KEYTYPE_RSA then
        Some (SingleRSA (chain kp) (chain_len kp) (key_rsa kp)
                        br_rsa_pkcs1_sign_default)
      else if key_type kp =? BR_KEYTYPE_EC then
        Some (SingleEC (chain kp) (chain_len kp) (key_ec kp) BR_KEYTYPE_SIGN
                       (signer_key_type kp) br_ecdsa_sign_asn1_default)
      else None
  end.

(** External calls made by lines 182-209: one [strdup] for a non-null
    server name. *)
Definition dup_calls (sn : option string) : nat :=
  match sn with Some _ => 1%nat | None => 0%nat end.

(** Every step of [tls_connect_common] before the server-name check of lines
    243-248 goes through: the role is client, [strdup] succeeds, stapling is
    not required, the connection object is allocated and
    [tls_configure_x509] returns zero. *)
Definition earlier_steps_pass (sn : option string) (m : machine) : Prop :=
  Z.land (flags (ctx m)) TLS_CLIENT <> 0 /\
  (forall s, sn = Some s -> p_strdup pf (clock m) s = true) /\
  ocsp_require_stapling (config (ctx m)) = 0 /\
  fst (p_tls_conn_new pf (clock m + dup_calls sn)) = true /\
  fst (p_tls_configure_x509 pf (S (clock m + dup_calls sn))) = 0.

(** The machine with no keypair configured, all else equal. *)
Definition without_keypair (m : machine) : machine :=
  let c := ctx m in
  mk_machine
    (mk_tls (flags c) (state c)
       (mk_config (ocsp_require_stapling (config c)) (verify_name (config c))
                  None)
       (error c) (servername c) (conn c) (socket c) (fd_read c) (fd_write c)
       (read_cb c) (write_cb c) (cb_arg c))
    (clock m) (errno m) (trace m).

(** The three [hints] of lines 108-121. *)
Definition hints_inet : addrinfo :=
  mk_addrinfo AI_NUMERICHOST AF_INET SOCK_STREAM 0 [].
Definition hints_inet6 : addrinfo :=
  mk_addrinfo AI_NUMERICHOST AF_INET6 SOCK_STREAM 0 [].
Definition hints_unspec : addrinfo :=
  mk_addrinfo AI_ADDRCONFIG AF_UNSPEC SOCK_STREAM 0 [].

End Observations.

(** The log and the recorded error of one candidate that did not connect:
    either [socket] failed, or [socket] gave [s], [connect] failed and [s]
    was closed. *)
Inductive failed_attempt (ai : addrinfo) : list event * tls_error -> Prop :=
| socket_failed (e : Z) :
    failed_attempt ai
      ([EvSocket (ai_family ai) (ai_socktype ai) (ai_protocol ai) (-1) e],
       mk_error "socket" (Some e))
| connect_failed (s x e : Z) :
    s <> -1 ->
    failed_attempt ai
      ([EvSocket (ai_family ai) (ai_socktype ai) (ai_protocol ai) s x;
        EvConnect s (ai_addr ai) (-1) e;
        EvClose s],
       mk_error "connect" (Some e)).

(** The log of the candidate that connected on descriptor [s]. *)
Inductive connected_attempt (ai : addrinfo) (s : Z) : list event -> Prop :=
| connected (x r y : Z) :
    s <> -1 -> r <> -1 ->
    connected_attempt ai s
      [EvSocket (ai_family ai) (ai_socktype ai) (ai_protocol ai) s x;
       EvConnect s (ai_addr ai) r y].

(** The logs of a run of attempts, one after the other. *)
Definition logs_of (outcomes : list (list event * tls_error)) : list event :=
  List.concat (map fst outcomes).

(** The error left by a run of failed attempts: that of the last one, or the
    error [before] the run when there was no attempt. *)
Definition error_after (before : option tls_error)
    (outcomes : list (list event * tls_error)) : option tls_error :=
  last (map (fun o => Some (snd o)) outcomes) before.

(** Two machines that differ at most in what earlier calls left behind: the
    role flags, the configuration and the position in the platform's answers
    are the same. *)
Definition same_setup (m1 m2 : machine) : Prop :=
  flags (ctx m1) = flags (ctx m2) /\
  config (ctx m1) = config (ctx m2) /\
  clock m1 = clock m2.

(** Two runs that cannot be told apart by their value when they start from
    machines of the same setup, and that end in machines of the same
    setup. *)
Definition insensitive {X : Type} (f g : machine -> X * machine) : Prop :=
  forall m1 m2,
    same_setup m1 m2 ->
    fst (f m1) = fst (g m2) /\ same_setup (snd (f m1)) (snd (g m2)).

(** ** tls_client (lines 39-53) *)

Definition set_flags (v : Z) (c : tls) : tls :=
  mk_tls v (state c) (config c) (error c) (servername c) (conn c) (socket c)
         (fd_read c) (fd_write c) (read_cb c) (write_cb c) (cb_arg c).

Section Constructor.

Variable pf : platform.

(** [tls_init] and [tls_new] live in tls.c: the value [tls_init ()] returned
    and the session [tls_new ()] returned (NULL is [None]) are the two
    arguments; [tls_new] is only reached when [tls_init] did not return -1.
    The result is the pointer [tls_client] returns. *)
Definition tls_client (tls_init : Z) (tls_new : option tls) : option tls :=
  if tls_init =? -1 then None
  else
    match tls_new with
    | None => None
    | Some ctx => Some (set_flags (Z.lor (flags ctx) (c_TLS_CLIENT pf)) ctx)
    end.

(** Lines 108-160 of [tls_connect_servername], the part after [h] and [p]
    are fixed: resolution, the connection loop and the hand-over to
    [tls_connect_socket]. *)
Definition connect_tail (h : string) (p : option string)
    (servername : option string) : M Z :=
  res0 <- resolve pf h p ;;
  s <- connect_loop pf res0 (-1) ;;
  freeaddrinfo ;;
  (if s =? -1 then goto_err else ret tt) ;;
  let servername :=
    match servername with Some sn => sn | None => h end in
  r <- call (tls_connect_socket pf s (Some servername)) ;;
  (if negb (r =? 0) then sys_close s ;; goto_err else ret tt) ;;
  modify_ctx (set_socket s) ;;
  ret 0.

End Constructor.

(** Events that neither open nor close a descriptor. *)
Definition fd_neutral_event (e : event) : bool :=
  match e with
  | EvSocket _ _ _ _ _ | EvClose _ => false
  | _ => true
  end.

Definition fd_neutral (evs : list event) : bool :=
  forallb fd_neutral_event evs.

(** The session [c'] is the session [c] with, at most, another recorded
    error. *)
Definition same_but_error (c c' : tls) : Prop :=
  c' = set_error (error c') c.

(** The server name [tls_connect_servername] passes on: the explicit one, or
    the host it connects to. *)
Definition name_or_host (servername : option string) (h : string) : string :=
  match servername with Some sn => sn | None => h end.

(** The session [c'] has the role, configuration, state and transport of the
    session [c]. *)
Definition same_binding (c c' : tls) : Prop :=
  flags c' = flags c /\ config c' = config c /\ state c' = state c /\
  socket c' = socket c /\ fd_read c' = fd_read c /\ fd_write c' = fd_write c /\
  read_cb c' = read_cb c /\ write_cb c' = write_cb c /\ cb_arg c' = cb_arg c.

(** The session went through [tls_connect_common]: [TLS_CONNECTED] is set
    and the connection object is there, with the default RSA verification
    installed and the client handshake reset. *)
Definition bootstrapped (pf : platform) (c : tls) : Prop :=
  Z.land (state c) (c_TLS_CONNECTED pf) = c_TLS_CONNECTED pf /\
  exists cn,
    conn c = Some cn /\
    cc_default_rsapub (client cn) = true /\
    cc_single_key (client cn) = installed_key pf (keypair (config c)) /\
    cc_reset (client cn) <> None.

(** ** More concrete platforms and sessions *)
(** Modelled from the spec: "Failure at any step leaves the session
    un-connected and reports a descriptive error". [tls_configure_x509] lives
    outside src/; on such a platform a call of it that fails has recorded an
    error. *)
Definition x509_reports (pf : platform) : Prop :=
  forall n, fst (p_tls_configure_x509 pf n) <> 0 ->
            snd (p_tls_configure_x509 pf n) <> None.

Module Scenarios.

Import Reference.

(** One candidate, which connects; [tls_host_port] splits any host into
    "example.com" and "443". *)
Definition one_connects : platform :=
  with_answers (fun _ _ => true)
    (fun _ _ _ _ => (0, [candidate 1]))
    (fun n _ _ _ => (Z.of_nat n + 3, 0))
    (fun _ _ _ => (0, 0))
    (fun _ _ => (0, Some "example.com", Some "443"))
    (fun _ => (true, None)) (fun _ => (0, None)).

(** [getaddrinfo] returns 0 and an empty list. *)
Definition no_candidates : platform :=
  with_answers (fun _ _ => true)
    (fun _ _ _ _ => (0, []))
    (fun n _ _ _ => (Z.of_nat n + 3, 0))
    (fun _ _ _ => (0, 0))
    (fun _ _ => (1, None, None))
    (fun _ => (true, None)) (fun _ => (0, None)).

(** [strdup] fails. *)
Definition no_memory : platform :=
  with_answers (fun _ _ => false)
    (fun _ _ _ _ => (-2, []))
    (fun _ _ _ _ => (-1, 97)) (fun _ _ _ => (-1, 111))
    (fun _ _ => (1, None, None))
    (fun _ => (true, None)) (fun _ => (0, None)).

Definition stapling : tls_config := mk_config 1 0 None.

(** A session with the server role (flag 2) only. *)
Definition server_boot : machine :=
  mk_machine (mk_tls 2 0 no_keys None None None (-1) (-1) (-1) None None None)
             0 0 [].

(** A session that was bound to descriptors 3 and 4 and to the server name
    "old.example" before. *)
Definition rebound : machine :=
  mk_machine
    (mk_tls 1 2 no_keys None (Some "old.example")
       (Some (mk_conn 0 (mk_client true None (Some (Some "old.example")))))
       (-1) 3 4 (Some tls_fd_read_cb) (Some tls_fd_write_cb) None)
    2 0 [EvConnNew (Some 0%nat); EvConfigureX509 0].

(** [tls_configure_x509] fails and records its error. *)
Definition x509_fails : platform :=
  with_answers (fun _ _ => true) (fun _ _ _ _ => (-2, []))
    (fun _ _ _ _ => (-1, 97)) (fun _ _ _ => (-1, 111))
    (fun _ _ => (1, None, None))
    (fun _ => (true, None))
    (fun _ => (-1, Some (mk_error "failed to configure certificates" None))).

End Scenarios.

(** ** Facts about C strings *)

Lemma length_snoc (t : string) (c : ascii) :
  String.length (t ++ String c "")%string = S (String.length t).
Proof. induction t as [|a t IH]; simpl; [reflexivity | now rewrite IH]. Qed.

Lemma get_snoc (t : string) (c : ascii) :
  String.get (String.length t) (t ++ String c "")%string = Some c.
Proof. induction t as [|a t IH]; simpl; [reflexivity | exact IH]. Qed.

Lemma substring_snoc (t u : string) :
  String.substring 0 (String.length t) (t ++ u)%string = t.
Proof.
  induction t as [|a t IH]; simpl.
  - destruct u; reflexivity.
  - now rewrite IH.
Qed.

Lemma string_snoc_cases (s : string) :
  s = "" \/ exists t c, s = (t ++ String c "")%string.
Proof.
  induction s as [|a s IH]; [now left | right].
  destruct IH as [-> | (t & c & ->)].
  - now exists "", a.
  - now exists (String a t), c.
Qed.

Lemma append_snoc_inj (t u : string) (c d : ascii) :
  (t ++ String c "")%string = (u ++ String d "")%string -> t = u /\ c = d.
Proof.
  revert u; induction t as [|a t IH]; intros [|b u]; simpl; intros H.
  - now inversion H.
  - inversion H as [[E1 E2]]. destruct u; discriminate.
  - inversion H as [[E1 E2]]. destruct t; discriminate.
  - inversion H as [[E1 E2]]. destruct (IH _ E2) as [-> ->]. now split.
Qed.

(** [strip_dot] removes the last character when it is a dot ... *)
Lemma strip_dot_dotted (t : string) : strip_dot (t ++ ".") = t.
Proof.
  unfold strip_dot, strlen, char_at, truncate_at.
  rewrite length_snoc. cbn [Nat.ltb Nat.leb andb].
  replace (S (String.length t) - 1)%nat with (String.length t) by lia.
  rewrite get_snoc. cbn [is_dot].
  now rewrite Ascii.eqb_refl, substring_snoc.
Qed.

(** ... and leaves every other string alone. *)
Lemma strip_dot_undotted (s : string) :
  (forall t, s <> (t ++ ".")%string) -> strip_dot s = s.
Proof.
  intros H. destruct (string_snoc_cases s) as [-> | (t & c & ->)];
    [reflexivity |].
  unfold strip_dot, strlen, char_at, truncate_at.
  rewrite length_snoc. cbn [Nat.ltb Nat.leb andb].
  replace (S (String.length t) - 1)%nat with (String.length t) by lia.
  rewrite get_snoc. cbn [is_dot].
  destruct (Ascii.eqb c ".") eqn:E; [|reflexivity].
  apply Ascii.eqb_eq in E. subst c. now destruct (H t).
Qed.

(** Exactly one dot goes: of two trailing dots the first stays. *)
Lemma strip_dot_two_dots (t : string) :
  strip_dot (t ++ "..") = (t ++ ".")%string.
Proof.
  replace (t ++ "..")%string with ((t ++ ".") ++ ".")%string.
  - apply strip_dot_dotted.
  - induction t as [|a t IH]; simpl; [reflexivity | now rewrite IH].
Qed.

(** ** Running the model *)

Ltac unfold_model :=
  unfold tls_connect_cbs, tls_connect_cbs_body, tls_connect_socket,
    tls_connect_fds, tls_connect_fds_body, tls_connect_common,
    tls_connect_common_body, c_function, call, canonicalize, bind_keypair,
    tls_conn_new, tls_configure_x509, strdup, record_error,
    br_ssl_client_reset, br_ssl_client_set_single_ec,
    br_ssl_client_set_single_rsa, br_ssl_client_set_default_rsapub,
    on_client, tls_set_errorx, modify_ctx, get_ctx, tick, emit, bind, ret,
    goto_err in *.

Ltac split_step H :=
  match type of H with
  | context [if ?b then _ else _] =>
      match type of b with bool => destruct b eqn:? end
  | context [match keypair ?c with _ => _ end] => destruct (keypair c) eqn:?
  | context [match ?x with Some _ => _ | None => _ end] =>
      is_var x; destruct x
  end.

Ltac tidy :=
  repeat match goal with
         | H : negb _ && negb _ = _ |- _ => rewrite <- negb_orb in H
         | H : negb _ = true |- _ => apply (proj1 (negb_true_iff _)) in H
         | H : negb _ = false |- _ => apply (proj1 (negb_false_iff _)) in H
         | H : (_ =? _) = true |- _ => apply (proj1 (Z.eqb_eq _ _)) in H
         | H : (_ =? _) = false |- _ => apply (proj1 (Z.eqb_neq _ _)) in H
         | H : Some _ = Some _ |- _ => injection H as H; try subst
         end.

Ltac compute_state :=
  cbv beta iota delta
    [upd_ctx log next_clock set_errno set_state set_error set_servername
     set_conn set_socket set_fd_read set_fd_write set_read_cb set_write_cb
     set_cb_arg ctx clock errno trace flags state config error servername
     conn socket fd_read fd_write read_cb write_cb cb_arg conn_id client
     cc_default_rsapub cc_single_key cc_reset].

Ltac split_run H :=
  cbn in H; repeat (split_step H; cbn in H; try discriminate H).

Section ClientFacts.

Variable pf : platform.

Local Abbreviation TLS_CLIENT := (c_TLS_CLIENT pf).
Local Abbreviation TLS_CONNECTED := (c_TLS_CONNECTED pf).
Local Abbreviation BR_KEYTYPE_RSA := (c_BR_KEYTYPE_RSA pf).
Local Abbreviation BR_KEYTYPE_EC := (c_BR_KEYTYPE_EC pf).
Local Abbreviation BR_KEYTYPE_SIGN := (c_BR_KEYTYPE_SIGN pf).
Local Abbreviation AF_INET := (c_AF_INET pf).
Local Abbreviation AF_INET6 := (c_AF_INET6 pf).
Local Abbreviation inet_pton := (p_inet_pton pf).
Local Abbreviation AF_UNSPEC := (c_AF_UNSPEC pf).
Local Abbreviation AI_NUMERICHOST := (c_AI_NUMERICHOST pf).
Local Abbreviation AI_ADDRCONFIG := (c_AI_ADDRCONFIG pf).
Local Abbreviation SOCK_STREAM := (c_SOCK_STREAM pf).
Local Abbreviation gai_strerror := (p_gai_strerror pf).

(** A successful run of [tls_connect_common], read backwards: what must
    have held, and the machine it ends in. *)
Lemma tls_connect_common_ok (sn : option string) (m m' : machine) :
  tls_connect_common pf sn m = (0, m') ->
  let c := ctx m in
  let id := (clock m + dup_calls sn)%nat in
  Z.land (flags c) TLS_CLIENT <> 0 /\
  ocsp_require_stapling (config c) = 0 /\
  (verify_name (config c) <> 0 -> sni_of pf sn <> None) /\
  fst (p_tls_conn_new pf id) = true /\
  fst (p_tls_configure_x509 pf (S id)) = 0 /\
  m' = mk_machine
         (mk_tls (flags c) (Z.lor (state c) TLS_CONNECTED) (config c)
            (match snd (p_tls_configure_x509 pf (S id)) with
             | Some e => Some e
             | None => match snd (p_tls_conn_new pf id) with
                       | Some e => Some e
                       | None => error c
                       end
             end)
            (servername_after sn c)
            (Some (mk_conn id (mk_client true (installed_key pf (keypair (config c)))
                                         (Some (sni_of pf sn)))))
            (socket c) (fd_read c) (fd_write c) (read_cb c) (write_cb c)
            (cb_arg c))
         (S (S id)) (errno m)
         (trace m ++ [EvConnNew (Some id); EvConfigureX509 0]).
Proof.
  destruct m as [[fl st cfg er sv cn so fr fw rc wc ca] k en tr].
  cbn [ctx clock errno trace flags state config error servername conn socket
       fd_read fd_write read_cb write_cb cb_arg].
  intros H.
  unfold sni_of, servername_after, installed_key, is_literal, dup_calls.
  unfold_model. destruct sn as [s|]; split_run H.
  all: inversion H; subst; clear H.
  all: tidy.
  all: rewrite ?Nat.add_0_r, ?Nat.add_1_r; cbn.
  all: repeat match goal with
       | H : ?x = _ |- context [?x] => rewrite H
       end; cbn.
  all: repeat split; try assumption; try congruence.
  all: compute_state; rewrite <- ?app_assoc; reflexivity.
Qed.

Ltac split_goal :=
  cbn;
  repeat (match goal with
          | |- context [if ?b then _ else _] =>
              match type of b with bool => destruct b eqn:? end
          | |- context [match keypair ?c with _ => _ end] =>
              destruct (keypair c) eqn:?
          end; cbn).

Ltac open_machine m :=
  destruct m as [[? ? ? ? ? ? ? ? ? ? ? ?] ? ? ?];
  cbn [ctx clock errno trace flags state config error servername conn socket
       fd_read fd_write read_cb write_cb cb_arg] in *.

(** Whatever [tls_connect_common] returns, it returns 0 or -1, sets
    [TLS_CONNECTED] exactly when it returns 0, and leaves the role, the
    configuration and the transport fields alone. *)
Lemma tls_connect_common_frame (sn : option string) (m m' : machine) (rv : Z) :
  tls_connect_common pf sn m = (rv, m') ->
  (rv = 0 \/ rv = -1) /\
  state (ctx m') =
    (if rv =? 0 then Z.lor (state (ctx m)) TLS_CONNECTED else state (ctx m)) /\
  flags (ctx m') = flags (ctx m) /\
  config (ctx m') = config (ctx m) /\
  socket (ctx m') = socket (ctx m) /\
  fd_read (ctx m') = fd_read (ctx m) /\
  fd_write (ctx m') = fd_write (ctx m) /\
  read_cb (ctx m') = read_cb (ctx m) /\
  write_cb (ctx m') = write_cb (ctx m) /\
  cb_arg (ctx m') = cb_arg (ctx m).
Proof.
  open_machine m. intros H.
  unfold_model. destruct sn as [s|]; split_run H.
  all: inversion H; subst; clear H; cbn.
  all: repeat split; auto.
Qed.

(** When the steps before the server-name check go through and the check is
    satisfied, [tls_connect_common] returns 0. *)
Lemma tls_connect_common_succeeds (sn : option string) (m : machine) :
  earlier_steps_pass pf sn m ->
  (verify_name (config (ctx m)) <> 0 -> sni_of pf sn <> None) ->
  fst (tls_connect_common pf sn m) = 0.
Proof.
  unfold earlier_steps_pass, sni_of, is_literal, dup_calls.
  open_machine m. intros (Hc & Hd & Ho & Hn & Hx) Hv.
  apply Z.eqb_neq in Hc.
  unfold_model.
  destruct sn as [s|]; cbn in Hn, Hx;
    rewrite ?Nat.add_0_r, ?Nat.add_1_r in Hn, Hx;
    [pose proof (Hd s eq_refl)|];
    split_goal; try reflexivity; tidy; try congruence.
  all: match goal with
       | E : _ || _ = true |- _ => rewrite E in Hv
       | _ => idtac
       end; exfalso; now apply Hv.
Qed.

(** Once the role check and [strdup] are passed, the [servername] field
    holds the stripped copy, however the call ends. *)
Lemma servername_field (s : string) (m m' : machine) (rv : Z) :
  tls_connect_common pf (Some s) m = (rv, m') ->
  Z.land (flags (ctx m)) TLS_CLIENT <> 0 ->
  p_strdup pf (clock m) s = true ->
  servername (ctx m') = Some (strip_dot s).
Proof.
  open_machine m. intros H Hc Hs.
  unfold_model. split_run H.
  all: inversion H; subst; clear H; try reflexivity.
  all: tidy; congruence.
Qed.

(** The stripped string ends with a dot exactly when the string ended with
    two. *)
Lemma strip_dot_still_dotted (s t : string) :
  strip_dot s = (t ++ ".")%string <-> s = (t ++ "..")%string.
Proof.
  split.
  - intros H. destruct (string_snoc_cases s) as [-> | (u & c & ->)].
    + destruct t; discriminate H.
    + destruct (Ascii.eqb c ".") eqn:E.
      * apply Ascii.eqb_eq in E. subst c.
        change (String "." "") with "." in H.
        rewrite strip_dot_dotted in H. subst u.
        clear. induction t as [|a t IH]; simpl; [reflexivity | now rewrite IH].
      * rewrite strip_dot_undotted in H.
        -- apply append_snoc_inj in H. destruct H as [_ ->].
           now rewrite Ascii.eqb_refl in E.
        -- intros v Hv. apply append_snoc_inj in Hv. destruct Hv as [_ ->].
           now rewrite Ascii.eqb_refl in E.
  - intros ->. apply strip_dot_two_dots.
Qed.

(** A client session on which every step up to the server-name check goes
    through, with verification required and no server name left: the call
    stops at the check of lines 243-248, after the connection object was
    allocated and before the handshake is reset. *)
Lemma stops_at_server_name_check (sn : option string) (m : machine) :
  earlier_steps_pass pf sn m ->
  verify_name (config (ctx m)) <> 0 ->
  sni_of pf sn = None ->
  exists m',
    tls_connect_common pf sn m = (-1, m') /\
    error (ctx m') = Some (mk_error "server name not specified" None) /\
    exists cn, conn (ctx m') = Some cn /\ cc_reset (client cn) = None.
Proof.
  unfold earlier_steps_pass, sni_of, is_literal.
  destruct (tls_connect_common pf sn m) as [rv m'] eqn:H.
  open_machine m. intros (Hc & Hd & Ho & Hn & Hx) Hv Hsni.
  unfold_model.
  destruct sn as [s|]; cbn in Hn, Hx;
    rewrite ?Nat.add_0_r, ?Nat.add_1_r in Hn, Hx;
    [pose proof (Hd s eq_refl)|]; split_run H.
  all: inversion H; subst; clear H; tidy; try congruence.
  all: try match goal with
           | E : _ || _ = false |- _ => rewrite E in Hsni; discriminate Hsni
           end.
  all: eexists; split; [reflexivity|]; split; [reflexivity|].
  all: eexists; split; reflexivity.
Qed.

(** C1. For a non-null server name, [tls_connect_common] removes exactly one
    trailing dot (a string [t ++ "."] becomes [t], any other string is kept)
    and then tests the stripped string with [inet_pton]. Whenever the
    handshake is initiated, the server name handed to [br_ssl_client_reset]
    is absent for a stripped string that is an IPv4 or IPv6 literal and is the
    stripped string otherwise. And when the steps around it go through, the
    handshake is initiated, for a literal too: with an absent name when
    verification is off; when verification is required the absent name stops
    the call at "server name not specified". *)
Theorem sni_of_servername (sn : string) (m : machine) :
  (forall t, sn = (t ++ ".")%string -> strip_dot sn = t) /\
  ((forall t, sn <> (t ++ ".")%string) -> strip_dot sn = sn) /\
  (forall m',
     tls_connect_common pf (Some sn) m = (0, m') ->
     exists cn,
       conn (ctx m') = Some cn /\
       cc_reset (client cn) =
         Some (if is_literal pf (strip_dot sn) then None
               else Some (strip_dot sn))) /\
  (earlier_steps_pass pf (Some sn) m ->
   exists rv m',
     tls_connect_common pf (Some sn) m = (rv, m') /\
     if is_literal pf (strip_dot sn) then
       if verify_name (config (ctx m)) =? 0 then
         rv = 0 /\
         exists cn, conn (ctx m') = Some cn /\ cc_reset (client cn) = Some None
       else
         rv = -1 /\
         error (ctx m') = Some (mk_error "server name not specified" None) /\
         exists cn, conn (ctx m') = Some cn /\ cc_reset (client cn) = None
     else
       rv = 0 /\
       exists cn,
         conn (ctx m') = Some cn /\
         cc_reset (client cn) = Some (Some (strip_dot sn))).
Proof.
  assert (Hok : forall m',
     tls_connect_common pf (Some sn) m = (0, m') ->
     exists cn,
       conn (ctx m') = Some cn /\
       cc_reset (client cn) =
         Some (if is_literal pf (strip_dot sn) then None
               else Some (strip_dot sn))).
  { intros m' H. apply tls_connect_common_ok in H.
    destruct H as (_ & _ & _ & _ & _ & ->). cbn. eexists. split; reflexivity. }
  split; [|split; [|split]].
  - intros t ->. apply strip_dot_dotted.
  - apply strip_dot_undotted.
  - exact Hok.
  - intros Hpass.
    destruct (is_literal pf (strip_dot sn)) eqn:Elit.
    + destruct (verify_name (config (ctx m)) =? 0) eqn:Ever.
      * apply Z.eqb_eq in Ever.
        assert (Hrv : fst (tls_connect_common pf (Some sn) m) = 0).
        { apply tls_connect_common_succeeds; [exact Hpass|].
          intros Hv. now destruct Hv. }
        destruct (tls_connect_common pf (Some sn) m) as [rv m'] eqn:H.
        cbn in Hrv. subst rv. exists 0, m'. split; [reflexivity|].
        split; [reflexivity|].
        destruct (Hok m' eq_refl) as (cn & Hc & Hr).
        exists cn. split; [exact Hc|]. rewrite Hr, ?Elit. reflexivity.
      * apply Z.eqb_neq in Ever.
        destruct (stops_at_server_name_check (Some sn) m Hpass Ever)
          as (m' & H & Herr & Hcn).
        { unfold sni_of. rewrite ?Elit. reflexivity. }
        exists (-1), m'. split; [exact H|]. split; [reflexivity|].
        split; [exact Herr | exact Hcn].
    + assert (Hrv : fst (tls_connect_common pf (Some sn) m) = 0).
      { apply tls_connect_common_succeeds; [exact Hpass|].
        intros _. unfold sni_of. rewrite ?Elit. discriminate. }
      destruct (tls_connect_common pf (Some sn) m) as [rv m'] eqn:H.
      cbn in Hrv. subst rv. exists 0, m'. split; [reflexivity|].
      split; [reflexivity|].
      destruct (Hok m' eq_refl) as (cn & Hc & Hr).
      exists cn. split; [exact Hc|]. rewrite Hr, ?Elit. reflexivity.
Qed.

(** C2, as the code has it. After [tls_connect_common] took a copy of a
    non-null server name, the session's [servername] field holds the
    stripped string whether or not it is a literal address; it is the server
    name handed to [br_ssl_client_reset] that is never a literal, and that
    is absent when the stripped string is one. *)
Theorem literal_kept_in_field_not_in_sni (sn : string) (m m' : machine)
    (rv : Z) :
  tls_connect_common pf (Some sn) m = (rv, m') ->
  Z.land (flags (ctx m)) TLS_CLIENT <> 0 ->
  p_strdup pf (clock m) sn = true ->
  servername (ctx m') = Some (strip_dot sn) /\
  (rv = 0 ->
   exists cn sni,
     conn (ctx m') = Some cn /\
     cc_reset (client cn) = Some sni /\
     (is_literal pf (strip_dot sn) = true -> sni = None) /\
     (forall s, sni = Some s -> is_literal pf s = false)).
Proof.
  intros H Hc Hs. split.
  - eapply servername_field; eassumption.
  - intros ->. apply tls_connect_common_ok in H.
    destruct H as (_ & _ & _ & _ & _ & ->). cbn.
    eexists. eexists. split; [reflexivity|]. split; [reflexivity|].
    destruct (is_literal pf (strip_dot sn)) eqn:E; split;
      try discriminate; try reflexivity.
    intros s [= <-]. exact E.
Qed.

(** C3, as the code has it. After [tls_connect_common] took a copy of a
    non-null server name, the session's [servername] field is that name
    without one trailing dot; it still ends with a dot exactly when the name
    ended with two dots. *)
Theorem servername_loses_one_dot (sn : string) (m m' : machine) (rv : Z) :
  tls_connect_common pf (Some sn) m = (rv, m') ->
  Z.land (flags (ctx m)) TLS_CLIENT <> 0 ->
  p_strdup pf (clock m) sn = true ->
  servername (ctx m') = Some (strip_dot sn) /\
  (forall t, sn = (t ++ ".")%string -> strip_dot sn = t) /\
  ((forall t, sn <> (t ++ ".")%string) -> strip_dot sn = sn) /\
  (forall t, strip_dot sn = (t ++ ".")%string <-> sn = (t ++ "..")%string).
Proof.
  intros H Hc Hs. split; [|split; [|split]].
  - eapply servername_field; eassumption.
  - intros t ->. apply strip_dot_dotted.
  - apply strip_dot_undotted.
  - intros t. apply strip_dot_still_dotted.
Qed.

Lemma land_lor_absorb (a b : Z) : Z.land (Z.lor a b) b = b.
Proof.
  apply Z.bits_inj'. intros n _.
  rewrite Z.land_spec, Z.lor_spec.
  destruct (Z.testbit a n), (Z.testbit b n); reflexivity.
Qed.

Lemma app_not_longer {A} (l r : list A) (x : A) : l <> l ++ x :: r.
Proof.
  intros H. apply (f_equal (@List.length A)) in H.
  rewrite length_app in H. cbn in H. lia.
Qed.

Lemma live_conns_app (tr l : list event) :
  live_conns (tr ++ l) = fold_left live_step l (live_conns tr).
Proof. unfold live_conns. apply fold_left_app. Qed.

(** Lines 224-241 never jump to [err] and never record an error. *)
Lemma bind_keypair_falls_through (m : machine) :
  exists m1,
    bind_keypair pf m = (Some tt, m1) /\ error (ctx m1) = error (ctx m).
Proof.
  open_machine m. unfold bind_keypair. unfold_model. cbn.
  destruct (keypair _) as [kp|]; cbn; [|eexists; split; reflexivity].
  destruct (key_type kp =? BR_KEYTYPE_RSA); cbn;
    [eexists; split; reflexivity|].
  destruct (key_type kp =? BR_KEYTYPE_EC); cbn; eexists; split; reflexivity.
Qed.

(** C5, as the code has it. A configured keypair is bound by key type: an RSA
    key with the PKCS#1 v1.5 signer, an EC key with the ASN.1 ECDSA signer.
    For a keypair of any other key type the binding step installs nothing
    and reports nothing: it never jumps to the error exit, and the call
    returns, with the same recorded error, what it returns when no keypair is
    configured. *)
Theorem keypair_bound_by_key_type (sn : option string) (m : machine)
    (kp : tls_keypair) :
  keypair (config (ctx m)) = Some kp ->
  BR_KEYTYPE_RSA <> BR_KEYTYPE_EC ->
  (forall m0, exists m1,
      bind_keypair pf m0 = (Some tt, m1) /\ error (ctx m1) = error (ctx m0)) /\
  (forall m', tls_connect_common pf sn m = (0, m') ->
     exists cn,
       conn (ctx m') = Some cn /\
       (key_type kp = BR_KEYTYPE_RSA ->
        cc_single_key (client cn) =
          Some (SingleRSA (chain kp) (chain_len kp) (key_rsa kp)
                          br_rsa_pkcs1_sign_default)) /\
       (key_type kp = BR_KEYTYPE_EC ->
        cc_single_key (client cn) =
          Some (SingleEC (chain kp) (chain_len kp) (key_ec kp)
                         BR_KEYTYPE_SIGN (signer_key_type kp)
                         br_ecdsa_sign_asn1_default)) /\
       (key_type kp <> BR_KEYTYPE_RSA -> key_type kp <> BR_KEYTYPE_EC ->
        cc_single_key (client cn) = None)) /\
  (key_type kp <> BR_KEYTYPE_RSA -> key_type kp <> BR_KEYTYPE_EC ->
   fst (tls_connect_common pf sn m) =
     fst (tls_connect_common pf sn (without_keypair m)) /\
   error (ctx (snd (tls_connect_common pf sn m))) =
     error (ctx (snd (tls_connect_common pf sn (without_keypair m))))).
Proof.
  intros Hkp Hd. split; [|split].
  - apply bind_keypair_falls_through.
  - intros m' H. apply tls_connect_common_ok in H.
    destruct H as (_ & _ & _ & _ & _ & ->). cbn. rewrite Hkp.
    eexists. split; [reflexivity|]. cbn.
    unfold installed_key.
    split; [|split].
    + intros E. apply Z.eqb_eq in E. now rewrite E.
    + intros E. assert (E' : key_type kp <> BR_KEYTYPE_RSA) by congruence.
      apply Z.eqb_neq in E'. apply Z.eqb_eq in E. now rewrite E', E.
    + intros E1 E2. apply Z.eqb_neq in E1, E2. now rewrite E1, E2.
  - intros E1 E2. apply Z.eqb_neq in E1, E2.
    unfold without_keypair. open_machine m. subst.
    unfold_model. destruct sn as [s|]; cbn; rewrite ?Hkp; cbn;
      rewrite ?E1, ?E2; cbn.
    all: split_goal; rewrite ?Hkp; cbn; rewrite ?E1, ?E2; cbn;
      split; reflexivity.
Qed.

(** C6, as the code has it. When [tls_connect_common] fails after
    [tls_conn_new] allocated the connection object, it returns -1 and leaves
    the state as it was, so [TLS_CONNECTED] is not set by the call; the
    object is not released: it stays attached to the session as [ctx->conn]
    and stays live. The failure is either that of [tls_configure_x509], and
    the error that call recorded is the session's error, or the missing
    server name, recorded as "server name not specified". So where a failing
    [tls_configure_x509] records an error, the session has an error on every
    such path. *)
Theorem failed_bootstrap_keeps_conn (sn : option string) (m m' : machine)
    (rv : Z) (id : nat) (evs : list event) :
  tls_connect_common pf sn m = (rv, m') ->
  rv <> 0 ->
  trace m' = trace m ++ EvConnNew (Some id) :: evs ->
  rv = -1 /\
  state (ctx m') = state (ctx m) /\
  (exists cc, conn (ctx m') = Some (mk_conn id cc)) /\
  live_conns (trace m') = live_conns (trace m) ++ [id] /\
  ((exists r, r <> 0 /\ evs = [EvConfigureX509 r] /\
      r = fst (p_tls_configure_x509 pf (S id)) /\
      forall e, snd (p_tls_configure_x509 pf (S id)) = Some e ->
                error (ctx m') = Some e) \/
   (evs = [EvConfigureX509 0] /\
    error (ctx m') = Some (mk_error "server name not specified" None))) /\
  (x509_reports pf -> error (ctx m') <> None).
Proof.
  open_machine m. intros H Hrv Htr.
  unfold_model. destruct sn as [s|]; split_run H.
  all: inversion H; subst; clear H; try (now destruct Hrv).
  all: cbn in Htr; rewrite <- ?app_assoc in Htr; cbn in Htr.
  all: try (now apply app_not_longer in Htr).
  all: apply app_inv_head in Htr; try discriminate Htr.
  all: injection Htr as <- <-.
  all: compute_state; rewrite <- ?app_assoc; rewrite live_conns_app; cbn.
  all: tidy.
  all: split; [reflexivity|]. all: split; [reflexivity|].
  all: split; [eexists; reflexivity|]. all: split; [reflexivity|].
  all: split.
  all: try (right; split; [congruence | reflexivity]).
  all: try (intros _; discriminate).
  all: try (left; eexists;
            split; [|split; [reflexivity|split;
                              [reflexivity|intros e ->; reflexivity]]];
            assumption).
  all: intros Hx;
    match goal with
    | H : fst (p_tls_configure_x509 pf ?n) <> 0 |- _ => specialize (Hx n H)
    end;
    destruct (snd (p_tls_configure_x509 pf _));
    [discriminate | now destruct Hx].
Qed.


(** [tls_connect_cbs] in closed form over [tls_connect_common]. *)
Lemma tls_connect_cbs_run (rcb wcb : option callback) (arg : option Z)
    (sn : option string) (m : machine) :
  tls_connect_cbs pf rcb wcb arg sn m =
    let (r, m1) := tls_connect_common pf sn m in
    if negb (r =? 0) then (-1, m1)
    else match rcb, wcb with
         | Some _, Some _ =>
             (0, upd_ctx (set_cb_arg arg)
                   (upd_ctx (set_write_cb wcb)
                      (upd_ctx (set_read_cb rcb) m1)))
         | _, _ =>
             (-1, upd_ctx (set_error
                             (Some (mk_error "no callbacks provided" None)))
                    m1)
         end.
Proof.
  unfold tls_connect_cbs, tls_connect_cbs_body, c_function, call, bind.
  destruct (tls_connect_common pf sn m) as [r m1].
  destruct (negb (r =? 0)); [reflexivity|].
  destruct rcb, wcb; reflexivity.
Qed.

(** C10, as the code has it. [tls_connect_cbs] with a null read or write
    callback returns -1. It checks the callbacks after [tls_connect_common]:
    when that call succeeded, the error recorded is "no callbacks provided"
    while the connection object is allocated, the handshake has been
    initiated and [TLS_CONNECTED] is set; the session's callback fields are
    the ones it had before. When [tls_connect_common] failed, the callbacks
    are not looked at: the session is as that call left it, with its error
    and with the state it had before. *)
Theorem missing_callback_after_bootstrap (rcb wcb : option callback)
    (arg : option Z) (sn : option string) (m : machine) :
  rcb = None \/ wcb = None ->
  fst (tls_connect_cbs pf rcb wcb arg sn m) = -1 /\
  (forall m1, tls_connect_common pf sn m = (0, m1) ->
     let m' := snd (tls_connect_cbs pf rcb wcb arg sn m) in
     m' = upd_ctx (set_error (Some (mk_error "no callbacks provided" None)))
            m1 /\
     error (ctx m') = Some (mk_error "no callbacks provided" None) /\
     (exists cn, conn (ctx m') = Some cn /\ cc_reset (client cn) <> None) /\
     Z.land (state (ctx m')) TLS_CONNECTED = TLS_CONNECTED /\
     read_cb (ctx m') = read_cb (ctx m) /\
     write_cb (ctx m') = write_cb (ctx m) /\
     cb_arg (ctx m') = cb_arg (ctx m)) /\
  (forall rv m1, tls_connect_common pf sn m = (rv, m1) -> rv <> 0 ->
     let m' := snd (tls_connect_cbs pf rcb wcb arg sn m) in
     m' = m1 /\ state (ctx m') = state (ctx m)).
Proof.
  intros Hcb.
  assert (Hfail : forall rv m1,
            tls_connect_common pf sn m = (rv, m1) -> rv <> 0 ->
            let m' := snd (tls_connect_cbs pf rcb wcb arg sn m) in
            m' = m1 /\ state (ctx m') = state (ctx m)).
  { intros rv m1 E Hrv. cbv zeta. rewrite tls_connect_cbs_run, E.
    apply Z.eqb_neq in Hrv. rewrite Hrv. cbn [negb snd].
    split; [reflexivity|].
    destruct (tls_connect_common_frame _ _ _ _ E) as (_ & Hst & _).
    rewrite Hrv in Hst. exact Hst. }
  eenough (Hmain : _ /\ _)
    by (destruct Hmain as [Hrv Hok];
        split; [exact Hrv|split; [exact Hok|exact Hfail]]).
  clear Hfail.
  rewrite tls_connect_cbs_run.
  destruct (tls_connect_common pf sn m) as [r m1] eqn:E.
  assert (Hnull : match rcb, wcb with
                  | Some _, Some _ =>
                      (0, upd_ctx (set_cb_arg arg)
                            (upd_ctx (set_write_cb wcb)
                               (upd_ctx (set_read_cb rcb) m1)))
                  | _, _ =>
                      (-1, upd_ctx (set_error
                             (Some (mk_error "no callbacks provided" None)))
                             m1)
                  end =
                  (-1, upd_ctx (set_error
                         (Some (mk_error "no callbacks provided" None))) m1)).
  { destruct Hcb as [-> | ->]; [|destruct rcb]; reflexivity. }
  rewrite Hnull. clear Hnull. split.
  - destruct (negb (r =? 0)); reflexivity.
  - intros m2 [= -> <-]. cbn [negb Z.eqb snd].
    apply tls_connect_common_ok in E.
    destruct E as (_ & _ & _ & _ & _ & ->).
    cbn. repeat split; try reflexivity.
    + eexists. split; [reflexivity|]. cbn. discriminate.
    + apply land_lor_absorb.
Qed.

(** ** Resolution and connection (tls_connect_servername) *)

Ltac unfold_sys :=
  unfold resolve, getaddrinfo, sys_socket, sys_connect, sys_close,
    freeaddrinfo, tls_host_port, tls_set_error, tls_set_errorx, modify_ctx,
    get_ctx, tick, emit, bind, ret, goto_err in *.

(** Lines 108-126 in closed form. *)
Lemma resolve_run (h : string) (p : option string) (m : machine) :
  let n := clock m in
  let r1 := p_getaddrinfo pf n h p (hints_inet pf) in
  let r2 := p_getaddrinfo pf (S n) h p (hints_inet6 pf) in
  let r3 := p_getaddrinfo pf (S (S n)) h p (hints_unspec pf) in
  let e1 := EvGetaddrinfo h p (hints_inet pf) (fst r1) in
  let e2 := EvGetaddrinfo h p (hints_inet6 pf) (fst r2) in
  let e3 := EvGetaddrinfo h p (hints_unspec pf) (fst r3) in
  resolve pf h p m =
    (if fst r1 =? 0 then
       (Some (snd r1), mk_machine (ctx m) (S n) (errno m) (trace m ++ [e1]))
     else if fst r2 =? 0 then
       (Some (snd r2),
        mk_machine (ctx m) (S (S n)) (errno m) (trace m ++ [e1; e2]))
     else if fst r3 =? 0 then
       (Some (snd r3),
        mk_machine (ctx m) (S (S (S n))) (errno m) (trace m ++ [e1; e2; e3]))
     else
       (None,
        mk_machine
          (set_error (Some (mk_error (gai_strerror (fst r3)) None)) (ctx m))
          (S (S (S n))) (errno m) (trace m ++ [e1; e2; e3]))).
Proof.
  cbv zeta.
  unfold hints_inet, hints_inet6, hints_unspec.
  open_machine m. unfold_sys.
  cbv beta iota delta [set_ai_flags set_ai_family set_ai_socktype hints_zero
    ai_flags ai_family ai_socktype ai_protocol ai_addr].
  cbn.
  repeat (destruct (fst _ =? 0); cbn);
    compute_state; rewrite <- ?app_assoc; reflexivity.
Qed.

(** C7. Lines 108-126 call [getaddrinfo] first for [AF_INET] with
    [AI_NUMERICHOST], then, if that failed, for [AF_INET6] with
    [AI_NUMERICHOST], then, if that failed too, for [AF_UNSPEC] with
    [AI_ADDRCONFIG]; the first call that returns 0 ends the sequence and
    gives the candidates, and the session is as it was. When all three fail
    the only error recorded is [gai_strerror] of the third call's return
    value, and [tls_connect_servername] (here with a port given) returns -1
    to its caller with that error, having made no other call. *)
Theorem resolve_order (h : string) (p : option string) (m : machine) :
  let n := clock m in
  let r1 := p_getaddrinfo pf n h p (hints_inet pf) in
  let r2 := p_getaddrinfo pf (S n) h p (hints_inet6 pf) in
  let r3 := p_getaddrinfo pf (S (S n)) h p (hints_unspec pf) in
  let e1 := EvGetaddrinfo h p (hints_inet pf) (fst r1) in
  let e2 := EvGetaddrinfo h p (hints_inet6 pf) (fst r2) in
  let e3 := EvGetaddrinfo h p (hints_unspec pf) (fst r3) in
  let unresolved :=
    set_error (Some (mk_error (gai_strerror (fst r3)) None)) (ctx m) in
  (exists o m1,
     resolve pf h p m = (o, m1) /\
     if fst r1 =? 0 then
       o = Some (snd r1) /\ ctx m1 = ctx m /\
       clock m1 = S n /\ trace m1 = trace m ++ [e1]
     else if fst r2 =? 0 then
       o = Some (snd r2) /\ ctx m1 = ctx m /\
       clock m1 = S (S n) /\ trace m1 = trace m ++ [e1; e2]
     else if fst r3 =? 0 then
       o = Some (snd r3) /\ ctx m1 = ctx m /\
       clock m1 = S (S (S n)) /\ trace m1 = trace m ++ [e1; e2; e3]
     else
       o = None /\ ctx m1 = unresolved /\
       clock m1 = S (S (S n)) /\ trace m1 = trace m ++ [e1; e2; e3]) /\
  (forall port sn,
     p = Some port ->
     Z.land (flags (ctx m)) TLS_CLIENT <> 0 ->
     fst r1 <> 0 -> fst r2 <> 0 -> fst r3 <> 0 ->
     exists m',
       tls_connect_servername pf (Some h) (Some port) sn m = (-1, m') /\
       ctx m' = unresolved /\
       clock m' = S (S (S n)) /\ trace m' = trace m ++ [e1; e2; e3]).
Proof.
  cbv zeta. split.
  - rewrite resolve_run. cbv zeta.
    destruct (fst (p_getaddrinfo pf (clock m) h p (hints_inet pf)) =? 0);
      [|destruct (fst (p_getaddrinfo pf (S (clock m)) h p (hints_inet6 pf))
                 =? 0);
        [|destruct (fst (p_getaddrinfo pf (S (S (clock m))) h p
                           (hints_unspec pf)) =? 0)]].
    all: eexists; eexists; split; [reflexivity|]; repeat split.
  - intros port sn -> Hc H1 H2 H3.
    apply Z.eqb_neq in Hc, H1, H2, H3.
    unfold tls_connect_servername, tls_connect_servername_body, c_function.
    unfold bind at 1. unfold get_ctx at 1.
    unfold bind at 1. rewrite Hc. cbn [ret].
    unfold bind at 1. cbn [ret].
    unfold bind at 1. cbn [ret].
    unfold bind at 1. rewrite resolve_run. cbv zeta. rewrite H1, H2, H3.
    eexists. split; [reflexivity|]. repeat split.
Qed.

Lemma last_cons_default {A} (x d : A) (l : list A) :
  last (x :: l) d = last l x.
Proof.
  revert x d. induction l as [|y l IH]; intros x d; [reflexivity|].
  change (last (x :: y :: l) d) with (last (y :: l) d).
  now rewrite !IH.
Qed.

Lemma error_after_cons (before : option tls_error)
    (o : list event * tls_error) (outcomes : list (list event * tls_error)) :
  error_after before (o :: outcomes) = error_after (Some (snd o)) outcomes.
Proof. unfold error_after. cbn [map]. apply last_cons_default. Qed.

Lemma open_fds_app (l1 l2 : list event) :
  open_fds (l1 ++ l2) = fold_left open_step l2 (open_fds l1).
Proof. unfold open_fds. apply fold_left_app. Qed.

(** A failed attempt leaves none of its descriptors open. *)
Lemma failed_attempt_closed (ai : addrinfo) (o : list event * tls_error) :
  failed_attempt ai o -> open_fds (fst o) = [].
Proof.
  intros [e | s x e Hs]; cbn; [reflexivity|].
  apply Z.eqb_neq in Hs. rewrite Hs. cbn. now rewrite Z.eqb_refl.
Qed.

Lemma open_fds_failed_then (ai : addrinfo) (o : list event * tls_error)
    (l : list event) :
  failed_attempt ai o -> open_fds (fst o ++ l) = open_fds l.
Proof.
  intros H. rewrite open_fds_app, (failed_attempt_closed _ _ H). reflexivity.
Qed.

(** One iteration of the loop of lines 130-144. *)
Lemma connect_loop_cons (ai : addrinfo) (res : list addrinfo) (s0 : Z)
    (m : machine) :
  let r := p_socket pf (clock m) (ai_family ai) (ai_socktype ai)
             (ai_protocol ai) in
  let ev_s := EvSocket (ai_family ai) (ai_socktype ai) (ai_protocol ai)
                (fst r) (snd r) in
  let c := p_connect pf (S (clock m)) (fst r) (ai_addr ai) in
  let ev_c := EvConnect (fst r) (ai_addr ai) (fst c) (snd c) in
  connect_loop pf (ai :: res) s0 m =
    if fst r =? -1 then
      connect_loop pf res (fst r)
        (mk_machine
           (set_error (Some (mk_error "socket" (Some (snd r)))) (ctx m))
           (S (clock m)) (snd r) (trace m ++ [ev_s]))
    else if fst c =? -1 then
      connect_loop pf res (-1)
        (mk_machine
           (set_error (Some (mk_error "connect" (Some (snd c)))) (ctx m))
           (S (S (clock m))) (snd c)
           (trace m ++ [ev_s; ev_c; EvClose (fst r)]))
    else
      (Some (fst r),
       mk_machine (ctx m) (S (S (clock m))) (errno m)
         (trace m ++ [ev_s; ev_c])).
Proof.
  cbv zeta. open_machine m. cbn [connect_loop]. unfold_sys. cbn.
  destruct (fst _ =? -1) eqn:E1; cbn; [reflexivity|].
  destruct (fst (p_connect _ _ _ _) =? -1) eqn:E2; cbn;
    compute_state; rewrite <- ?app_assoc; reflexivity.
Qed.

(** C8. The loop of lines 130-144 attempts the candidates in order. Either
    it returns a descriptor [s]: then the candidates before some candidate
    [c] each failed, [c] connected on [s], nothing was attempted after [c],
    and [s] is the one descriptor opened and not closed. Or it returns -1:
    then every candidate was attempted and failed, no descriptor opened by
    the loop is left open, the recorded error is that of the last candidate
    (the earlier ones were overwritten), and [tls_connect_servername] (here
    with a port given) returns -1 without a further attempt. *)
Theorem connect_loop_first_success (res : list addrinfo) (m : machine) :
  exists s m',
    connect_loop pf res (-1) m = (Some s, m') /\
    ((s <> -1 /\
      exists pre c post outcomes evs,
        res = pre ++ c :: post /\
        Forall2 failed_attempt pre outcomes /\
        connected_attempt c s evs /\
        trace m' = trace m ++ logs_of outcomes ++ evs /\
        open_fds (logs_of outcomes ++ evs) = [s]) \/
     (s = -1 /\
      exists outcomes,
        Forall2 failed_attempt res outcomes /\
        trace m' = trace m ++ logs_of outcomes /\
        open_fds (logs_of outcomes) = [] /\
        error (ctx m') = error_after (error (ctx m)) outcomes)) /\
    (s = -1 ->
     forall h port sn m0,
       Z.land (flags (ctx m0)) TLS_CLIENT <> 0 ->
       resolve pf h (Some port) m0 = (Some res, m) ->
       tls_connect_servername pf (Some h) (Some port) sn m0 =
         (-1, log EvFreeaddrinfo m')).
Proof.
  enough (H : exists s m',
    connect_loop pf res (-1) m = (Some s, m') /\
    ((s <> -1 /\
      exists pre c post outcomes evs,
        res = pre ++ c :: post /\
        Forall2 failed_attempt pre outcomes /\
        connected_attempt c s evs /\
        trace m' = trace m ++ logs_of outcomes ++ evs /\
        open_fds (logs_of outcomes ++ evs) = [s]) \/
     (s = -1 /\
      exists outcomes,
        Forall2 failed_attempt res outcomes /\
        trace m' = trace m ++ logs_of outcomes /\
        open_fds (logs_of outcomes) = [] /\
        error (ctx m') = error_after (error (ctx m)) outcomes))).
  { destruct H as (s & m' & Hrun & Hcases). exists s, m'.
    split; [exact Hrun|]. split; [exact Hcases|].
    intros -> h port sn m0 Hc Hres. apply Z.eqb_neq in Hc.
    unfold tls_connect_servername, tls_connect_servername_body, c_function.
    unfold bind at 1. unfold get_ctx at 1.
    unfold bind at 1. rewrite Hc. cbn [ret].
    unfold bind at 1. cbn [ret].
    unfold bind at 1. cbn [ret].
    unfold bind at 1. rewrite Hres.
    unfold bind at 1. rewrite Hrun.
    reflexivity. }
  revert m. induction res as [|ai res IH]; intros m.
  - exists (-1), m. split; [reflexivity|]. right. split; [reflexivity|].
    exists []. cbn. rewrite app_nil_r.
    refine (conj _ (conj eq_refl (conj eq_refl eq_refl))). constructor.
  - rewrite connect_loop_cons. cbv zeta.
    set (r := p_socket pf (clock m) (ai_family ai) (ai_socktype ai)
                (ai_protocol ai)).
    set (c := p_connect pf (S (clock m)) (fst r) (ai_addr ai)).
    assert (Hfail : forall (o : list event * tls_error) (m1 : machine),
      failed_attempt ai o ->
      trace m1 = trace m ++ fst o ->
      error (ctx m1) = Some (snd o) ->
      exists s m',
        connect_loop pf res (-1) m1 = (Some s, m') /\
        ((s <> -1 /\
          exists pre c post outcomes evs,
            ai :: res = pre ++ c :: post /\
            Forall2 failed_attempt pre outcomes /\
            connected_attempt c s evs /\
            trace m' = trace m ++ logs_of outcomes ++ evs /\
            open_fds (logs_of outcomes ++ evs) = [s]) \/
         (s = -1 /\
          exists outcomes,
            Forall2 failed_attempt (ai :: res) outcomes /\
            trace m' = trace m ++ logs_of outcomes /\
            open_fds (logs_of outcomes) = [] /\
            error (ctx m') = error_after (error (ctx m)) outcomes))).
    { intros o m1 Ho Htr1 Herr1.
      destruct (IH m1) as (s & m' & Hrun & Hcases).
      exists s, m'. split; [exact Hrun|].
      destruct Hcases as
        [(Hs & pre & c' & post & outs & evs & -> & Hpre & Hc & Htr & Hop)
        |(Hs & outs & Hall & Htr & Hop & Herr)].
      - left. split; [exact Hs|].
        exists (ai :: pre), c', post, (o :: outs), evs.
        split; [reflexivity|]. split; [now constructor|].
        split; [exact Hc|]. split.
        + rewrite Htr, Htr1. unfold logs_of. cbn [map List.concat].
          now rewrite <- !app_assoc.
        + unfold logs_of in *. cbn [map List.concat].
          rewrite <- app_assoc.
          now rewrite (open_fds_failed_then ai o _ Ho).
      - right. split; [exact Hs|].
        exists (o :: outs).
        split; [now constructor|]. split; [|split].
        + rewrite Htr, Htr1. unfold logs_of. cbn [map List.concat].
          now rewrite <- !app_assoc.
        + unfold logs_of in *. cbn [map List.concat].
          now rewrite (open_fds_failed_then ai o _ Ho).
        + rewrite Herr, Herr1, error_after_cons. reflexivity. }
    destruct (fst r =? -1) eqn:E1.
    + (* socket failed *)
      apply Z.eqb_eq in E1. rewrite E1.
      apply (Hfail ([EvSocket (ai_family ai) (ai_socktype ai)
                       (ai_protocol ai) (-1) (snd r)],
                    mk_error "socket" (Some (snd r))));
        [constructor | reflexivity | reflexivity].
    + apply Z.eqb_neq in E1.
      destruct (fst c =? -1) eqn:E2.
      * (* connect failed *)
        apply Z.eqb_eq in E2. rewrite E2.
        apply (Hfail ([EvSocket (ai_family ai) (ai_socktype ai)
                         (ai_protocol ai) (fst r) (snd r);
                       EvConnect (fst r) (ai_addr ai) (-1) (snd c);
                       EvClose (fst r)],
                      mk_error "connect" (Some (snd c))));
          [now constructor | reflexivity | reflexivity].
      * (* connected *)
        apply Z.eqb_neq in E2.
        eexists. eexists. split; [reflexivity|]. left. split; [exact E1|].
        exists [], ai, res, [].
        exists [EvSocket (ai_family ai) (ai_socktype ai) (ai_protocol ai)
                  (fst r) (snd r);
                EvConnect (fst r) (ai_addr ai) (fst c) (snd c)].
        split; [reflexivity|]. split; [constructor|].
        split; [now constructor|]. split; [reflexivity|].
        cbn. apply Z.eqb_neq in E1. now rewrite E1.
Qed.

(** ** No entry point looks at what an earlier bootstrap left behind *)

Lemma ins_ret {A} (a : A) : insensitive (ret a) (ret a).
Proof. intros m1 m2 H. now split. Qed.

Lemma ins_goto {A} : insensitive (@goto_err A) (@goto_err A).
Proof. intros m1 m2 H. now split. Qed.

Lemma ins_bind {A B} (c1 c2 : M A) (k1 k2 : A -> M B) :
  insensitive c1 c2 ->
  (forall a, insensitive (k1 a) (k2 a)) ->
  insensitive (bind c1 k1) (bind c2 k2).
Proof.
  intros Hc Hk m1 m2 H. unfold bind.
  destruct (Hc m1 m2 H) as [Hv Hs].
  destruct (c1 m1) as [[a1|] n1], (c2 m2) as [[a2|] n2]; cbn in *;
    try discriminate.
  - injection Hv as ->. now apply Hk.
  - now split.
Qed.

Lemma ins_get_bind {B} (k1 k2 : tls -> M B) :
  (forall c1 c2, flags c1 = flags c2 -> config c1 = config c2 ->
                 insensitive (k1 c1) (k2 c2)) ->
  insensitive (bind get_ctx k1) (bind get_ctx k2).
Proof.
  intros Hk m1 m2 H. unfold bind, get_ctx.
  destruct H as (Hf & Hc & Hn). apply Hk; [exact Hf | exact Hc |].
  now repeat split.
Qed.

Lemma ins_modify (f1 f2 : tls -> tls) :
  (forall c, flags (f1 c) = flags c /\ config (f1 c) = config c) ->
  (forall c, flags (f2 c) = flags c /\ config (f2 c) = config c) ->
  insensitive (modify_ctx f1) (modify_ctx f2).
Proof.
  intros H1 H2 m1 m2 (Hf & Hc & Hn). split; [reflexivity|].
  unfold modify_ctx, upd_ctx, same_setup. cbn.
  destruct (H1 (ctx m1)) as [-> ->], (H2 (ctx m2)) as [-> ->].
  now repeat split.
Qed.

Lemma ins_tick : insensitive tick tick.
Proof.
  intros m1 m2 (Hf & Hc & Hn). unfold tick, next_clock, same_setup. cbn.
  rewrite Hn. now repeat split.
Qed.

Lemma ins_emit (e1 e2 : event) : insensitive (emit e1) (emit e2).
Proof. intros m1 m2 (Hf & Hc & Hn). now repeat split. Qed.

Lemma ins_errno {A} (a : A) (e1 e2 : machine -> Z) :
  insensitive (fun m => (Some a, set_errno (e1 m) m))
              (fun m => (Some a, set_errno (e2 m) m)).
Proof. intros m1 m2 (Hf & Hc & Hn). now repeat split. Qed.

Lemma ins_set_errorx (msg : string) :
  insensitive (tls_set_errorx msg) (tls_set_errorx msg).
Proof. apply ins_modify; intros c; now split. Qed.

Lemma ins_set_error (msg : string) :
  insensitive (tls_set_error msg) (tls_set_error msg).
Proof. intros m1 m2 (Hf & Hc & Hn). now repeat split. Qed.

Lemma ins_c_function (b1 b2 : M Z) :
  insensitive b1 b2 ->
  insensitive (c_function b1 (fun m => m)) (c_function b2 (fun m => m)).
Proof.
  intros Hb m1 m2 H. unfold c_function.
  destruct (Hb m1 m2 H) as [Hv Hs].
  destruct (b1 m1) as [[a1|] n1], (b2 m2) as [[a2|] n2]; cbn in *;
    try discriminate; [injection Hv as ->|]; now split.
Qed.

Lemma ins_call {A} (f g : machine -> A * machine) :
  insensitive f g -> insensitive (call f) (call g).
Proof.
  intros Hf m1 m2 H. unfold call. destruct (Hf m1 m2 H) as [Hv Hs].
  destruct (f m1), (g m2); cbn in *. subst. now split.
Qed.

Ltac ins_step :=
  match goal with
  | |- insensitive (ret _) (ret _) => apply ins_ret
  | |- insensitive goto_err goto_err => apply ins_goto
  | |- insensitive (bind get_ctx _) (bind get_ctx _) =>
      apply ins_get_bind;
      let c1 := fresh "c" in let c2 := fresh "c" in
      let Hf := fresh "Hf" in let Hc := fresh "Hc" in
      intros c1 c2 Hf Hc; rewrite ?Hf, ?Hc
  | |- insensitive (bind _ _) (bind _ _) => apply ins_bind; [|intros ?]
  | |- insensitive tick tick => apply ins_tick
  | |- insensitive (emit _) (emit _) => apply ins_emit
  | |- insensitive (tls_set_errorx _) (tls_set_errorx _) =>
      apply ins_set_errorx
  | |- insensitive (tls_set_error _) (tls_set_error _) =>
      apply ins_set_error
  | |- insensitive (modify_ctx _) (modify_ctx _) =>
      apply ins_modify; intros ?; split; reflexivity
  | |- insensitive (fun m => (Some _, set_errno _ m)) _ => apply ins_errno
  | |- insensitive (call _) (call _) => apply ins_call
  | |- insensitive (c_function _ _) (c_function _ _) => apply ins_c_function
  | |- insensitive (if ?b then _ else _) (if ?b then _ else _) => destruct b
  | |- insensitive (match ?x with Some _ => _ | None => _ end)
                   (match ?x with Some _ => _ | None => _ end) => destruct x
  | |- insensitive (let '(_, _) := ?x in _) (let '(_, _) := ?x in _) =>
      destruct x
  end.

Ltac ins := repeat ins_step.

Lemma ins_tls_connect_common (sn : option string) :
  insensitive (tls_connect_common pf sn) (tls_connect_common pf sn).
Proof.
  unfold tls_connect_common, tls_connect_common_body, canonicalize,
    bind_keypair, tls_conn_new, tls_configure_x509, strdup, record_error,
    br_ssl_client_reset, br_ssl_client_set_single_ec,
    br_ssl_client_set_single_rsa, br_ssl_client_set_default_rsapub,
    on_client.
  ins.
Qed.

Lemma ins_tls_connect_fds (fr fw : Z) (sn : option string) :
  insensitive (tls_connect_fds pf fr fw sn) (tls_connect_fds pf fr fw sn).
Proof.
  unfold tls_connect_fds, tls_connect_fds_body. ins.
  apply ins_tls_connect_common.
Qed.

Lemma ins_tls_connect_cbs (rcb wcb : option callback) (arg : option Z)
    (sn : option string) :
  insensitive (tls_connect_cbs pf rcb wcb arg sn)
              (tls_connect_cbs pf rcb wcb arg sn).
Proof.
  unfold tls_connect_cbs, tls_connect_cbs_body. ins.
  apply ins_tls_connect_common.
Qed.

Lemma ins_connect_loop (res : list addrinfo) (s : Z) :
  insensitive (connect_loop pf res s) (connect_loop pf res s).
Proof.
  revert s. induction res as [|ai res IH]; intros s; cbn [connect_loop].
  - ins.
  - unfold sys_socket, sys_connect, sys_close. ins; apply IH.
Qed.

Lemma ins_tls_connect_servername (host port sn : option string) :
  insensitive (tls_connect_servername pf host port sn)
              (tls_connect_servername pf host port sn).
Proof.
  unfold tls_connect_servername, tls_connect_servername_body, resolve,
    getaddrinfo, tls_host_port, freeaddrinfo, sys_close, tls_connect_socket.
  ins.
  all: first [apply ins_connect_loop | apply ins_tls_connect_fds].
Qed.

(** C4, as the code has it. No entry point checks whether the session was
    bootstrapped before: the value [tls_connect], [tls_connect_servername],
    [tls_connect_fds] and [tls_connect_cbs] (and [tls_connect_common])
    return on a session is the value they return on any session with the same
    role flags and configuration at the same point of the platform's
    answers, whatever its state, connection object, server name and
    transport fields are. A call on a bootstrapped session is accepted
    exactly when the same call on a fresh session is. *)
Theorem reinvocation_not_rejected (m1 m2 : machine) :
  same_setup m1 m2 ->
  (forall sn,
     fst (tls_connect_common pf sn m1) = fst (tls_connect_common pf sn m2)) /\
  (forall host port,
     fst (tls_connect pf host port m1) = fst (tls_connect pf host port m2)) /\
  (forall host port sn,
     fst (tls_connect_servername pf host port sn m1) =
     fst (tls_connect_servername pf host port sn m2)) /\
  (forall fr fw sn,
     fst (tls_connect_fds pf fr fw sn m1) =
     fst (tls_connect_fds pf fr fw sn m2)) /\
  (forall rcb wcb arg sn,
     fst (tls_connect_cbs pf rcb wcb arg sn m1) =
     fst (tls_connect_cbs pf rcb wcb arg sn m2)).
Proof.
  intros H. repeat split; intros.
  - now apply ins_tls_connect_common.
  - now apply ins_tls_connect_servername.
  - now apply ins_tls_connect_servername.
  - now apply ins_tls_connect_fds.
  - now apply ins_tls_connect_cbs.
Qed.

End ClientFacts.

(** ** The model on concrete sessions *)

Import Reference.

Ltac run := vm_compute; reflexivity.

Example strip_dot_example : strip_dot "example.com." = "example.com".
Proof. run. Qed.

Example literal_example :
  is_literal quiet "192.0.2.1" = true /\ is_literal quiet "::1" = true /\
  is_literal quiet "example.com" = false.
Proof. repeat split; run. Qed.

(** The server name "192.0.2.1" reaches the handshake as an absent name. *)
Example literal_gives_no_sni :
  exists cn,
    conn (ctx (snd (tls_connect_common quiet (Some "192.0.2.1")
                      (boot no_keys)))) = Some cn /\
    cc_reset (client cn) = Some None.
Proof. eexists. split; run. Qed.

Lemma literal_session_passes (cfg : tls_config) :
  ocsp_require_stapling cfg = 0 ->
  earlier_steps_pass quiet (Some "192.0.2.1") (boot cfg).
Proof.
  intros Ho. unfold earlier_steps_pass.
  split; [vm_compute; discriminate|].
  split; [intros s Hs; injection Hs as <-; run|].
  split; [exact Ho|]. split; run.
Qed.

Lemma sni_of_servername_witness :
  earlier_steps_pass quiet (Some "192.0.2.1") (boot no_keys) /\
  earlier_steps_pass quiet (Some "192.0.2.1") (boot verifying) /\
  (exists m' cn,
     tls_connect_common quiet (Some "192.0.2.1") (boot no_keys) = (0, m') /\
     conn (ctx m') = Some cn /\ cc_reset (client cn) = Some None) /\
  (exists m' cn,
     tls_connect_common quiet (Some "192.0.2.1") (boot verifying) = (-1, m') /\
     error (ctx m') = Some (mk_error "server name not specified" None) /\
     conn (ctx m') = Some cn /\ cc_reset (client cn) = None).
Proof.
  assert (Hp : earlier_steps_pass quiet (Some "192.0.2.1") (boot no_keys))
    by (apply literal_session_passes; run).
  assert (Hq : earlier_steps_pass quiet (Some "192.0.2.1") (boot verifying))
    by (apply literal_session_passes; run).
  assert (Elit : is_literal quiet (strip_dot "192.0.2.1") = true) by run.
  assert (Eoff : (verify_name (config (ctx (boot no_keys))) =? 0) = true)
    by run.
  assert (Eon : (verify_name (config (ctx (boot verifying))) =? 0) = false)
    by run.
  split; [exact Hp|]. split; [exact Hq|]. split.
  - destruct (proj2 (proj2 (proj2
      (sni_of_servername quiet "192.0.2.1" (boot no_keys)))) Hp)
      as (rv & m' & Hrun & Hres).
    rewrite Elit, Eoff in Hres. destruct Hres as (-> & cn & Hc & Hr).
    exists m', cn. split; [exact Hrun|]. split; [exact Hc | exact Hr].
  - destruct (proj2 (proj2 (proj2
      (sni_of_servername quiet "192.0.2.1" (boot verifying)))) Hq)
      as (rv & m' & Hrun & Hres).
    rewrite Elit, Eon in Hres. destruct Hres as (-> & He & cn & Hc & Hr).
    exists m', cn. split; [exact Hrun|]. split; [exact He|].
    split; [exact Hc | exact Hr].
Defined.

(** Against C2 as stated: after binding descriptors with the literal
    "192.0.2.1" as server name, the session's [servername] field is that
    literal, not absent. *)
Lemma servername_field_keeps_literal :
  is_literal quiet "192.0.2.1" = true /\
  fst (tls_connect_fds quiet 3 3 (Some "192.0.2.1") (boot no_keys)) = 0 /\
  servername (ctx (snd (tls_connect_fds quiet 3 3 (Some "192.0.2.1")
                          (boot no_keys)))) = Some "192.0.2.1".
Proof. repeat split; run. Qed.

Lemma literal_kept_in_field_not_in_sni_witness :
  tls_connect_common quiet (Some "192.0.2.1") (boot no_keys) =
    (0, snd (tls_connect_common quiet (Some "192.0.2.1") (boot no_keys))) /\
  Z.land (flags (ctx (boot no_keys))) (c_TLS_CLIENT quiet) <> 0 /\
  p_strdup quiet (clock (boot no_keys)) "192.0.2.1" = true /\
  servername (ctx (snd (tls_connect_common quiet (Some "192.0.2.1")
                          (boot no_keys)))) = Some "192.0.2.1".
Proof.
  assert (Hrun :
    tls_connect_common quiet (Some "192.0.2.1") (boot no_keys) =
    (0, snd (tls_connect_common quiet (Some "192.0.2.1") (boot no_keys))))
    by run.
  assert (Hc : Z.land (flags (ctx (boot no_keys))) (c_TLS_CLIENT quiet) <> 0)
    by (vm_compute; discriminate).
  assert (Hs : p_strdup quiet (clock (boot no_keys)) "192.0.2.1" = true)
    by run.
  split; [exact Hrun|]. split; [exact Hc|]. split; [exact Hs|].
  rewrite (proj1 (literal_kept_in_field_not_in_sni quiet "192.0.2.1"
                    (boot no_keys) _ 0 Hrun Hc Hs)).
  run.
Defined.

(** Against C3 as stated: a host name that ends in two dots leaves a
    [servername] that ends in a dot. *)
Lemma servername_keeps_second_dot :
  fst (tls_connect_fds quiet 3 3 (Some "example.com..") (boot no_keys)) = 0 /\
  servername (ctx (snd (tls_connect_fds quiet 3 3 (Some "example.com..")
                          (boot no_keys)))) = Some "example.com.".
Proof. repeat split; run. Qed.

Lemma servername_loses_one_dot_witness :
  tls_connect_common quiet (Some "example.com.") (boot no_keys) =
    (0, snd (tls_connect_common quiet (Some "example.com.") (boot no_keys)))
  /\
  Z.land (flags (ctx (boot no_keys))) (c_TLS_CLIENT quiet) <> 0 /\
  p_strdup quiet (clock (boot no_keys)) "example.com." = true /\
  servername (ctx (snd (tls_connect_common quiet (Some "example.com.")
                          (boot no_keys)))) = Some "example.com".
Proof.
  assert (Hrun :
    tls_connect_common quiet (Some "example.com.") (boot no_keys) =
    (0, snd (tls_connect_common quiet (Some "example.com.") (boot no_keys))))
    by run.
  assert (Hc : Z.land (flags (ctx (boot no_keys))) (c_TLS_CLIENT quiet) <> 0)
    by (vm_compute; discriminate).
  assert (Hs : p_strdup quiet (clock (boot no_keys)) "example.com." = true)
    by run.
  split; [exact Hrun|]. split; [exact Hc|]. split; [exact Hs|].
  rewrite (proj1 (servername_loses_one_dot quiet "example.com."
                    (boot no_keys) _ 0 Hrun Hc Hs)).
  run.
Defined.

(** Against C4 as stated: on one session, binding a descriptor pair and then
    a callback pair both succeed; the second call runs bootstrap again and
    replaces the descriptor callbacks. *)
Lemma descriptors_then_callbacks_accepted :
  fst (tls_connect_fds quiet 3 4 None (boot no_keys)) = 0 /\
  fst (tls_connect_cbs quiet (Some (user_cb 1)) (Some (user_cb 2)) None None
         (snd (tls_connect_fds quiet 3 4 None (boot no_keys)))) = 0 /\
  read_cb (ctx (snd (tls_connect_fds quiet 3 4 None (boot no_keys)))) =
    Some tls_fd_read_cb /\
  read_cb (ctx (snd
    (tls_connect_cbs quiet (Some (user_cb 1)) (Some (user_cb 2)) None None
       (snd (tls_connect_fds quiet 3 4 None (boot no_keys)))))) =
    Some (user_cb 1).
Proof. repeat split; run. Qed.

Lemma reinvocation_not_rejected_witness :
  same_setup (snd (tls_connect_fds quiet 3 4 None (boot no_keys)))
             (mk_machine (client_session no_keys) 2 0 []) /\
  fst (tls_connect_cbs quiet (Some (user_cb 1)) (Some (user_cb 2)) None None
         (snd (tls_connect_fds quiet 3 4 None (boot no_keys)))) =
  fst (tls_connect_cbs quiet (Some (user_cb 1)) (Some (user_cb 2)) None None
         (mk_machine (client_session no_keys) 2 0 [])).
Proof.
  assert (Hsame :
    same_setup (snd (tls_connect_fds quiet 3 4 None (boot no_keys)))
               (mk_machine (client_session no_keys) 2 0 []))
    by (repeat split; run).
  split; [exact Hsame|].
  apply (reinvocation_not_rejected quiet _ _ Hsame).
Defined.

(** Against C5 as stated: with a keypair of key type 7 configured, bootstrap
    goes on and succeeds; no error is recorded and no key is installed. *)
Lemma unknown_key_type_accepted :
  fst (tls_connect_common quiet None (boot odd_key)) = 0 /\
  error (ctx (snd (tls_connect_common quiet None (boot odd_key)))) = None /\
  exists cn,
    conn (ctx (snd (tls_connect_common quiet None (boot odd_key)))) = Some cn /\
    cc_single_key (client cn) = None /\
    cc_reset (client cn) = Some None.
Proof.
  split; [run|]. split; [run|]. eexists. split; [run|]. split; run.
Qed.

Lemma keypair_bound_by_key_type_witness :
  keypair (config (ctx (boot rsa_key))) = Some (mk_keypair 1 100 1 200 300 0)
  /\
  c_BR_KEYTYPE_RSA quiet <> c_BR_KEYTYPE_EC quiet /\
  exists cn,
    conn (ctx (snd (tls_connect_common quiet None (boot rsa_key)))) = Some cn /\
    cc_single_key (client cn) =
      Some (SingleRSA 100 1 200 br_rsa_pkcs1_sign_default).
Proof.
  assert (Hkp : keypair (config (ctx (boot rsa_key))) =
                Some (mk_keypair 1 100 1 200 300 0)) by run.
  assert (Hd : c_BR_KEYTYPE_RSA quiet <> c_BR_KEYTYPE_EC quiet)
    by (vm_compute; discriminate).
  assert (Hrun : tls_connect_common quiet None (boot rsa_key) =
                 (0, snd (tls_connect_common quiet None (boot rsa_key))))
    by run.
  split; [exact Hkp|]. split; [exact Hd|].
  destruct (keypair_bound_by_key_type quiet None (boot rsa_key) _ Hkp Hd)
    as (_ & Hok & _).
  destruct (Hok _ Hrun) as (cn & Hc & Hrsa & _).
  exists cn. split; [exact Hc|]. rewrite Hrsa; run.
Defined.

(** An EC keypair is bound with the ASN.1 ECDSA signer, for signing only. *)
Example ec_key_bound :
  exists cn,
    conn (ctx (snd (tls_connect_common quiet None (boot ec_key)))) = Some cn /\
    cc_single_key (client cn) =
      Some (SingleEC 100 1 300 32 1 br_ecdsa_sign_asn1_default).
Proof. eexists. split; run. Qed.

(** Against C6 as stated: bootstrap fails on the missing server name after
    the connection object was allocated; the session is left not connected
    and with the error "server name not specified", but the object is still
    attached to the session and live afterwards. *)
Lemma failed_bootstrap_conn_not_released :
  fst (tls_connect_common quiet None (boot verifying)) = -1 /\
  Z.land (state (ctx (snd (tls_connect_common quiet None (boot verifying)))))
         (c_TLS_CONNECTED quiet) = 0 /\
  error (ctx (snd (tls_connect_common quiet None (boot verifying)))) =
    Some (mk_error "server name not specified" None) /\
  conn (ctx (snd (tls_connect_common quiet None (boot verifying)))) =
    Some (mk_conn 0 (mk_client true None None)) /\
  live_conns (trace (snd (tls_connect_common quiet None (boot verifying)))) =
    [0%nat].
Proof. repeat split; run. Qed.

Lemma x509_fails_reports : x509_reports Scenarios.x509_fails.
Proof. intros n _. discriminate. Qed.

Lemma failed_bootstrap_keeps_conn_witness :
  tls_connect_common Scenarios.x509_fails None (boot no_keys) =
    (-1, snd (tls_connect_common Scenarios.x509_fails None (boot no_keys))) /\
  -1 <> 0 /\
  trace (snd (tls_connect_common Scenarios.x509_fails None (boot no_keys))) =
    trace (boot no_keys) ++ EvConnNew (Some 0%nat) :: [EvConfigureX509 (-1)] /\
  state (ctx (snd (tls_connect_common Scenarios.x509_fails None
                     (boot no_keys)))) = state (ctx (boot no_keys)) /\
  live_conns (trace (snd (tls_connect_common Scenarios.x509_fails None
                            (boot no_keys)))) =
    live_conns (trace (boot no_keys)) ++ [0%nat] /\
  error (ctx (snd (tls_connect_common Scenarios.x509_fails None
                     (boot no_keys)))) =
    Some (mk_error "failed to configure certificates" None) /\
  error (ctx (snd (tls_connect_common Scenarios.x509_fails None
                     (boot no_keys)))) <> None.
Proof.
  assert (Hrun :
    tls_connect_common Scenarios.x509_fails None (boot no_keys) =
    (-1, snd (tls_connect_common Scenarios.x509_fails None (boot no_keys))))
    by run.
  assert (Hrv : -1 <> 0) by discriminate.
  assert (Htr :
    trace (snd (tls_connect_common Scenarios.x509_fails None (boot no_keys))) =
    trace (boot no_keys) ++ EvConnNew (Some 0%nat) :: [EvConfigureX509 (-1)])
    by run.
  split; [exact Hrun|]. split; [exact Hrv|]. split; [exact Htr|].
  destruct (failed_bootstrap_keeps_conn Scenarios.x509_fails None
              (boot no_keys) _ (-1) 0%nat [EvConfigureX509 (-1)] Hrun Hrv Htr)
    as (_ & Hst & _ & Hlive & Hwhy & Herr).
  split; [exact Hst|]. split; [exact Hlive|]. split.
  - destruct Hwhy as [(r & _ & _ & _ & He) | (Hevs & _)];
      [|discriminate Hevs].
    apply He. reflexivity.
  - apply Herr. exact x509_fails_reports.
Defined.

Lemma resolve_order_witness :
  Z.land (flags (ctx (boot no_keys))) (c_TLS_CLIENT quiet) <> 0 /\
  exists m',
    tls_connect_servername quiet (Some "example.com") (Some "443") None
      (boot no_keys) = (-1, m') /\
    ctx m' = set_error (Some (mk_error "resolver error" None))
               (client_session no_keys) /\
    clock m' = 3%nat /\
    trace m' =
      [EvGetaddrinfo "example.com" (Some "443") (hints_inet quiet) (-2);
       EvGetaddrinfo "example.com" (Some "443") (hints_inet6 quiet) (-2);
       EvGetaddrinfo "example.com" (Some "443") (hints_unspec quiet) (-2)].
Proof.
  assert (Hc : Z.land (flags (ctx (boot no_keys))) (c_TLS_CLIENT quiet) <> 0)
    by (vm_compute; discriminate).
  assert (H1 : fst (p_getaddrinfo quiet (clock (boot no_keys)) "example.com"
                      (Some "443") (hints_inet quiet)) <> 0)
    by (vm_compute; discriminate).
  assert (H2 : fst (p_getaddrinfo quiet (S (clock (boot no_keys)))
                      "example.com" (Some "443") (hints_inet6 quiet)) <> 0)
    by (vm_compute; discriminate).
  assert (H3 : fst (p_getaddrinfo quiet (S (S (clock (boot no_keys))))
                      "example.com" (Some "443") (hints_unspec quiet)) <> 0)
    by (vm_compute; discriminate).
  split; [exact Hc|].
  destruct (proj2 (resolve_order quiet "example.com" (Some "443")
                     (boot no_keys)) "443" None eq_refl Hc H1 H2 H3)
    as (m' & Hrun & Hctx & Hclock & Htrace).
  exists m'. split; [exact Hrun|].
  rewrite Hctx, Hclock, Htrace. repeat split.
Defined.

(** Three candidates, the first refused, the second accepted: the loop
    returns the second candidate's descriptor and never opens a socket for
    the third. *)
Lemma connect_loop_first_success_witness :
  exists s m',
    connect_loop second_connects [candidate 1; candidate 2; candidate 3] (-1)
      (mk_machine (client_session no_keys) 1 0 []) = (Some s, m') /\
    s = 6 /\
    trace m' =
      [EvSocket 2 1 6 4 0; EvConnect 4 [1] (-1) 111; EvClose 4;
       EvSocket 2 1 6 6 0; EvConnect 6 [2] 0 0] /\
    open_fds (trace m') = [6].
Proof.
  destruct (connect_loop_first_success second_connects
              [candidate 1; candidate 2; candidate 3]
              (mk_machine (client_session no_keys) 1 0 []))
    as (s & m' & Hrun & _).
  exists s, m'. split; [exact Hrun|].
  vm_compute in Hrun. injection Hrun as <- <-.
  repeat split; run.
Defined.

(** Two candidates, both refused: [tls_connect_servername] fails with the
    error of the second [connect], and both descriptors are closed. *)
Example all_candidates_refused :
  fst (tls_connect_servername none_connects (Some "example.com")
         (Some "443") None (boot no_keys)) = -1 /\
  error (ctx (snd (tls_connect_servername none_connects (Some "example.com")
                     (Some "443") None (boot no_keys)))) =
    Some (mk_error "connect" (Some 104)) /\
  open_fds (trace (snd (tls_connect_servername none_connects
                          (Some "example.com") (Some "443") None
                          (boot no_keys)))) = [].
Proof. repeat split; run. Qed.



(** With verification required, a failing [strdup] of the literal server
    name gives "out of memory", not "server name not specified". *)
Example verification_behind_strdup :
  fst (tls_connect_common Scenarios.no_memory (Some "192.0.2.1")
         (boot verifying)) = -1 /\
  error (ctx (snd (tls_connect_common Scenarios.no_memory (Some "192.0.2.1")
                     (boot verifying)))) =
    Some (mk_error "out of memory" None).
Proof. split; run. Qed.

(** Against C10 as stated: on a client session that requires verification,
    [tls_connect_cbs] with null callbacks and no server name fails in
    bootstrap: the error is "server name not specified", not "no callbacks
    provided", and the session is not marked connected. *)
Lemma missing_callback_behind_failed_bootstrap :
  Z.land (flags (ctx (boot verifying))) (c_TLS_CLIENT quiet) <> 0 /\
  fst (tls_connect_cbs quiet None None None None (boot verifying)) = -1 /\
  error (ctx (snd (tls_connect_cbs quiet None None None None
                     (boot verifying)))) =
    Some (mk_error "server name not specified" None) /\
  Z.land (state (ctx (snd (tls_connect_cbs quiet None None None None
                             (boot verifying)))))
         (c_TLS_CONNECTED quiet) = 0.
Proof.
  split; [vm_compute; discriminate|]. repeat split; run.
Qed.

(** With stapling required, the same call fails before the connection
    object is allocated. *)
Example missing_callback_without_conn :
  fst (tls_connect_cbs quiet None None None None (boot Scenarios.stapling))
    = -1 /\
  conn (ctx (snd (tls_connect_cbs quiet None None None None
                    (boot Scenarios.stapling)))) = None /\
  error (ctx (snd (tls_connect_cbs quiet None None None None
                     (boot Scenarios.stapling)))) <>
    Some (mk_error "no callbacks provided" None).
Proof.
  split; [run|]. split; [run|]. vm_compute; discriminate.
Qed.

Lemma missing_callback_after_bootstrap_witness :
  (@None callback = None \/ Some (user_cb 2) = None) /\
  fst (tls_connect_cbs quiet None (Some (user_cb 2)) None None
         (boot no_keys)) = -1 /\
  error (ctx (snd (tls_connect_cbs quiet None (Some (user_cb 2)) None None
                     (boot no_keys)))) =
    Some (mk_error "no callbacks provided" None) /\
  Z.land (state (ctx (snd (tls_connect_cbs quiet None (Some (user_cb 2))
                             None None (boot no_keys)))))
         (c_TLS_CONNECTED quiet) = c_TLS_CONNECTED quiet /\
  snd (tls_connect_cbs quiet None (Some (user_cb 2)) None None
         (boot verifying)) =
    snd (tls_connect_common quiet None (boot verifying)).
Proof.
  assert (Hcb : @None callback = None \/ Some (user_cb 2) = None)
    by (left; reflexivity).
  assert (Hrun : tls_connect_common quiet None (boot no_keys) =
                 (0, snd (tls_connect_common quiet None (boot no_keys))))
    by run.
  assert (Hrun' : tls_connect_common quiet None (boot verifying) =
                  (-1, snd (tls_connect_common quiet None (boot verifying))))
    by run.
  assert (Hrv' : -1 <> 0) by discriminate.
  split; [exact Hcb|].
  destruct (missing_callback_after_bootstrap quiet None (Some (user_cb 2))
              None None (boot no_keys) Hcb) as (Hrv & Hafter & _).
  split; [exact Hrv|].
  destruct (Hafter _ Hrun) as (_ & Herr & _ & Hst & _).
  split; [exact Herr|]. split; [exact Hst|].
  destruct (missing_callback_after_bootstrap quiet None (Some (user_cb 2))
              None None (boot verifying) Hcb) as (_ & _ & Hfail).
  exact (proj1 (Hfail _ _ Hrun' Hrv')).
Defined.

(** ** Further facts about the entry points *)

Ltac open_session m :=
  destruct m as [[? ? ? ? ? ? ? ? ? ? ? ?] ? ? ?];
  cbn [ctx clock errno trace flags state config error servername conn socket
       fd_read fd_write read_cb write_cb cb_arg] in *.

Section MoreFacts.

Variable pf : platform.

Local Abbreviation TLS_CLIENT := (c_TLS_CLIENT pf).
Local Abbreviation TLS_CONNECTED := (c_TLS_CONNECTED pf).

(** [tls_connect_fds] in closed form over [tls_connect_common]. *)
Lemma tls_connect_fds_run (fr fw : Z) (sn : option string) (m : machine) :
  tls_connect_fds pf fr fw sn m =
    if (fr <? 0) || (fw <? 0) then
      (-1, upd_ctx (set_error
                      (Some (mk_error "invalid file descriptors" None))) m)
    else
      let (r, m1) := tls_connect_common pf sn m in
      if negb (r =? 0) then (-1, m1)
      else (0, upd_ctx (set_cb_arg None)
                 (upd_ctx (set_write_cb (Some tls_fd_write_cb))
                    (upd_ctx (set_fd_write fw)
                       (upd_ctx (set_read_cb (Some tls_fd_read_cb))
                          (upd_ctx (set_fd_read fr) m1))))).
Proof.
  unfold tls_connect_fds, tls_connect_fds_body, c_function, call, bind.
  destruct ((fr <? 0) || (fw <? 0)); [reflexivity|].
  cbn [ret]. destruct (tls_connect_common pf sn m) as [r m1].
  destruct (negb (r =? 0)); reflexivity.
Qed.

(** X1. [tls_connect_fds] with a negative read or write descriptor (and
    [tls_connect_socket] with a negative socket) returns -1 with the error
    "invalid file descriptors" before anything else happens: no external
    call is made and, but for the error, the session is as it was. *)
Theorem invalid_descriptors_rejected (fr fw : Z) (sn : option string)
    (m : machine) :
  fr < 0 \/ fw < 0 ->
  tls_connect_fds pf fr fw sn m =
    (-1, upd_ctx (set_error
                    (Some (mk_error "invalid file descriptors" None))) m) /\
  (fr = fw ->
   tls_connect_socket pf fr sn m =
     (-1, upd_ctx (set_error
                     (Some (mk_error "invalid file descriptors" None))) m)).
Proof.
  intros H.
  assert (E : (fr <? 0) || (fw <? 0) = true).
  { apply orb_true_iff. destruct H; [left | right]; now apply Z.ltb_lt. }
  split.
  - now rewrite tls_connect_fds_run, E.
  - intros <-. unfold tls_connect_socket. now rewrite tls_connect_fds_run, E.
Qed.

(** X2. With two non-negative descriptors [tls_connect_fds] returns what
    [tls_connect_common] returns. On 0 the session holds the two
    descriptors, the descriptor read and write callbacks and a null callback
    argument; on -1 the descriptors, callbacks, callback argument and state
    are the ones the session had before the call. *)
Theorem descriptors_bound_on_success (fr fw : Z) (sn : option string)
    (m m' : machine) (rv : Z) :
  0 <= fr -> 0 <= fw ->
  tls_connect_fds pf fr fw sn m = (rv, m') ->
  exists m1,
    tls_connect_common pf sn m = (rv, m1) /\
    ((rv = 0 /\
      fd_read (ctx m') = fr /\ fd_write (ctx m') = fw /\
      read_cb (ctx m') = Some tls_fd_read_cb /\
      write_cb (ctx m') = Some tls_fd_write_cb /\
      cb_arg (ctx m') = None /\
      conn (ctx m') = conn (ctx m1) /\
      state (ctx m') = Z.lor (state (ctx m)) TLS_CONNECTED) \/
     (rv = -1 /\ m' = m1 /\
      fd_read (ctx m') = fd_read (ctx m) /\
      fd_write (ctx m') = fd_write (ctx m) /\
      read_cb (ctx m') = read_cb (ctx m) /\
      write_cb (ctx m') = write_cb (ctx m) /\
      cb_arg (ctx m') = cb_arg (ctx m) /\
      state (ctx m') = state (ctx m))).
Proof.
  intros Hr Hw H. rewrite tls_connect_fds_run in H.
  apply Z.ltb_ge in Hr, Hw. rewrite Hr, Hw in H. cbn [orb] in H.
  destruct (tls_connect_common pf sn m) as [r m1] eqn:E.
  destruct (tls_connect_common_frame pf _ _ _ _ E)
    as (Hrv & Hst & _ & _ & _ & Hfr & Hfw & Hrc & Hwc & Hca).
  destruct Hrv as [-> | ->]; cbn in H; injection H as <- <-.
  - exists m1. split; [reflexivity|]. left. cbn.
    repeat split; try reflexivity. exact Hst.
  - exists m1. split; [reflexivity|]. right. cbn in Hst.
    repeat split; assumption.
Qed.

(** X3. With two callbacks [tls_connect_cbs] returns what
    [tls_connect_common] returns. On 0 the session holds the two callbacks
    and the callback argument; on -1 callbacks, argument and state are as
    before. In both cases [fd_read] and [fd_write] are left as they were, so
    descriptors of an earlier binding stay in the session. *)
Theorem callbacks_bound_on_success (r w : callback) (arg : option Z)
    (sn : option string) (m m' : machine) (rv : Z) :
  tls_connect_cbs pf (Some r) (Some w) arg sn m = (rv, m') ->
  fd_read (ctx m') = fd_read (ctx m) /\
  fd_write (ctx m') = fd_write (ctx m) /\
  exists m1,
    tls_connect_common pf sn m = (rv, m1) /\
    ((rv = 0 /\
      read_cb (ctx m') = Some r /\ write_cb (ctx m') = Some w /\
      cb_arg (ctx m') = arg /\
      conn (ctx m') = conn (ctx m1) /\
      state (ctx m') = Z.lor (state (ctx m)) TLS_CONNECTED) \/
     (rv = -1 /\ m' = m1 /\
      read_cb (ctx m') = read_cb (ctx m) /\
      write_cb (ctx m') = write_cb (ctx m) /\
      cb_arg (ctx m') = cb_arg (ctx m) /\
      state (ctx m') = state (ctx m))).
Proof.
  intros H. rewrite tls_connect_cbs_run in H.
  destruct (tls_connect_common pf sn m) as [r0 m1] eqn:E.
  destruct (tls_connect_common_frame pf _ _ _ _ E)
    as (Hrv & Hst & _ & _ & _ & Hfr & Hfw & Hrc & Hwc & Hca).
  destruct Hrv as [-> | ->]; cbn in H; injection H as <- <-; cbn.
  - split; [exact Hfr|]. split; [exact Hfw|].
    exists m1. split; [reflexivity|]. left.
    repeat split; try reflexivity. exact Hst.
  - split; [exact Hfr|]. split; [exact Hfw|].
    exists m1. split; [reflexivity|]. right. cbn in Hst.
    repeat split; assumption.
Qed.

(** [tls_connect_servername] up to line 107, in closed form: the argument
    checks, then [connect_tail]. *)
Lemma tls_connect_servername_cases (host port sn : option string)
    (m : machine) :
  tls_connect_servername pf host port sn m =
    if Z.land (flags (ctx m)) TLS_CLIENT =? 0 then
      (-1, upd_ctx (set_error (Some (mk_error "not a client context" None)))
             m)
    else
      match host with
      | None =>
          (-1, upd_ctx (set_error (Some (mk_error "host not specified" None)))
                 m)
      | Some host =>
          match port with
          | Some _ =>
              c_function (connect_tail pf host port sn) (fun m => m) m
          | None =>
              let '(r, hs, ps) := p_tls_host_port pf (clock m) host in
              if r =? -1 then
                (-1, upd_ctx (set_error
                       (Some (mk_error "memory allocation failure" None)))
                       (next_clock m))
              else if negb (r =? 0) then
                (-1, upd_ctx (set_error
                       (Some (mk_error "no port provided" None)))
                       (next_clock m))
              else
                c_function
                  (connect_tail pf
                     (match hs with Some hs => hs | None => host end) ps sn)
                  (fun m => m) (next_clock m)
          end
      end.
Proof.
  cbv beta iota delta [tls_connect_servername tls_connect_servername_body
    c_function bind get_ctx ret goto_err tls_set_errorx modify_ctx
    tls_host_port tick connect_tail].
  destruct (Z.land (flags (ctx m)) TLS_CLIENT =? 0); [reflexivity|].
  destruct host as [host|]; [|reflexivity].
  destruct port as [port|]; [reflexivity|].
  destruct (p_tls_host_port pf (clock m) host) as [[r hs] ps].
  destruct (r =? -1); [reflexivity|].
  destruct (negb (r =? 0)); [reflexivity|].
  destruct ps; reflexivity.
Qed.

(** X4. On a session without the [TLS_CLIENT] flag every entry point
    ([tls_connect_fds] and [tls_connect_socket] with valid descriptors)
    returns -1 with the error "not a client context"; no external call is
    made, whatever the other arguments are. *)
Theorem not_a_client_rejected (m : machine) :
  Z.land (flags (ctx m)) TLS_CLIENT = 0 ->
  let rejected :=
    (-1, upd_ctx (set_error (Some (mk_error "not a client context" None)))
           m) in
  (forall sn, tls_connect_common pf sn m = rejected) /\
  (forall host port, tls_connect pf host port m = rejected) /\
  (forall host port sn, tls_connect_servername pf host port sn m = rejected) /\
  (forall rcb wcb arg sn, tls_connect_cbs pf rcb wcb arg sn m = rejected) /\
  (forall fr fw sn, 0 <= fr -> 0 <= fw ->
                    tls_connect_fds pf fr fw sn m = rejected) /\
  (forall s sn, 0 <= s -> tls_connect_socket pf s sn m = rejected).
Proof.
  intros H. apply Z.eqb_eq in H. cbv zeta.
  assert (Hc : forall sn, tls_connect_common pf sn m =
    (-1, upd_ctx (set_error (Some (mk_error "not a client context" None)))
           m)).
  { intros sn.
    cbv beta iota delta [tls_connect_common tls_connect_common_body
      c_function bind get_ctx ret goto_err tls_set_errorx modify_ctx].
    now rewrite H. }
  assert (Hf : forall fr fw sn, 0 <= fr -> 0 <= fw ->
    tls_connect_fds pf fr fw sn m =
    (-1, upd_ctx (set_error (Some (mk_error "not a client context" None)))
           m)).
  { intros fr fw sn Hr Hw. rewrite tls_connect_fds_run.
    apply Z.ltb_ge in Hr, Hw. now rewrite Hr, Hw, Hc. }
  split; [exact Hc|]. split; [|split; [|split; [|split]]].
  - intros host port. unfold tls_connect.
    now rewrite tls_connect_servername_cases, H.
  - intros host port sn. now rewrite tls_connect_servername_cases, H.
  - intros rcb wcb arg sn. now rewrite tls_connect_cbs_run, Hc.
  - exact Hf.
  - intros s sn Hs. unfold tls_connect_socket. now apply Hf.
Qed.

(** X5. On a client session [tls_connect_servername] returns -1 with
    "host not specified" for a null host, before any external call. With a
    null port it asks [tls_host_port] first: on -1 the error is "memory
    allocation failure", on any other non-zero value "no port provided", and
    in both cases it returns -1 without resolving anything. *)
Theorem missing_host_or_port (host : option string) (sn : option string)
    (m : machine) :
  Z.land (flags (ctx m)) TLS_CLIENT <> 0 ->
  (forall port,
     host = None ->
     exists m',
       tls_connect_servername pf host port sn m = (-1, m') /\
       ctx m' = set_error (Some (mk_error "host not specified" None))
                  (ctx m) /\
       clock m' = clock m /\ trace m' = trace m) /\
  (forall h r hs ps,
     host = Some h ->
     p_tls_host_port pf (clock m) h = (r, hs, ps) ->
     (r = -1 ->
      exists m',
        tls_connect_servername pf host None sn m = (-1, m') /\
        ctx m' = set_error (Some (mk_error "memory allocation failure" None))
                   (ctx m) /\
        clock m' = S (clock m) /\ trace m' = trace m) /\
     (r <> -1 -> r <> 0 ->
      exists m',
        tls_connect_servername pf host None sn m = (-1, m') /\
        ctx m' = set_error (Some (mk_error "no port provided" None))
                   (ctx m) /\
        clock m' = S (clock m) /\ trace m' = trace m)).
Proof.
  intros Hc. apply Z.eqb_neq in Hc. split.
  - intros port ->. rewrite tls_connect_servername_cases, Hc.
    eexists. split; [reflexivity|]. repeat split.
  - intros h r hs ps -> Hp. rewrite tls_connect_servername_cases, Hc, Hp.
    split.
    + intros ->. eexists. split; [reflexivity|]. repeat split.
    + intros H1 H0. apply Z.eqb_neq in H1, H0. rewrite H1, H0.
      eexists. split; [reflexivity|]. repeat split.
Qed.

(** X6. When the port is null and [tls_host_port] splits the host into a
    host part and a port, [tls_connect_servername] goes on exactly as a call
    with these two as host and port does: in particular the host part, not
    the composite string, is resolved and is the default server name. *)
Theorem host_with_port_as_separate_arguments (host : string)
    (hs : option string) (ps : string) (sn : option string) (m : machine) :
  Z.land (flags (ctx m)) TLS_CLIENT <> 0 ->
  p_tls_host_port pf (clock m) host = (0, hs, Some ps) ->
  tls_connect_servername pf (Some host) None sn m =
    tls_connect_servername pf
      (Some (match hs with Some hs => hs | None => host end)) (Some ps) sn
      (next_clock m).
Proof.
  intros Hc Hp. apply Z.eqb_neq in Hc.
  rewrite !tls_connect_servername_cases. cbn [ctx next_clock flags].
  now rewrite Hc, Hp.
Qed.

(** *** Descriptors and the session across [tls_connect_servername] *)

Lemma fd_neutral_fold (evs : list event) (fds : list Z) :
  fd_neutral evs = true -> fold_left open_step evs fds = fds.
Proof.
  revert fds. induction evs as [|e evs IH]; intros fds H; [reflexivity|].
  cbn in H. apply andb_true_iff in H. destruct H as [He H].
  cbn [fold_left].
  replace (open_step fds e) with fds
    by (destruct e; try discriminate He; reflexivity).
  now apply IH.
Qed.

Lemma fd_neutral_app (a b : list event) :
  fd_neutral a = true -> fd_neutral b = true -> fd_neutral (a ++ b) = true.
Proof.
  unfold fd_neutral. intros Ha Hb. now rewrite forallb_app, Ha, Hb.
Qed.

Lemma open_fds_neutral_l (a b : list event) :
  fd_neutral a = true -> open_fds (a ++ b) = open_fds b.
Proof.
  intros H. rewrite open_fds_app. unfold open_fds.
  now rewrite (fd_neutral_fold a [] H).
Qed.

Lemma open_fds_neutral_r (a b : list event) :
  fd_neutral b = true -> open_fds (a ++ b) = open_fds a.
Proof. intros H. rewrite open_fds_app. now apply fd_neutral_fold. Qed.

Lemma same_but_error_refl (c : tls) : same_but_error c c.
Proof. now destruct c. Qed.

Lemma same_but_error_set (c : tls) (e : option tls_error) :
  same_but_error c (set_error e c).
Proof. now destruct c. Qed.

Lemma same_but_error_trans (c1 c2 c3 : tls) :
  same_but_error c1 c2 -> same_but_error c2 c3 -> same_but_error c1 c3.
Proof.
  unfold same_but_error. intros H12 H23. rewrite H23 at 1. rewrite H12.
  now destruct c1.
Qed.

Lemma same_but_error_binding (c c' : tls) :
  same_but_error c c' -> same_binding c c'.
Proof.
  unfold same_but_error, same_binding. intros ->. now destruct c.
Qed.

(** Trace and session across lines 108-126. *)
Lemma resolve_frame (h : string) (p : option string) (m m1 : machine)
    (o : option (list addrinfo)) :
  resolve pf h p m = (o, m1) ->
  same_but_error (ctx m) (ctx m1) /\
  (o <> None -> ctx m1 = ctx m) /\
  exists evs, trace m1 = trace m ++ evs /\ fd_neutral evs = true.
Proof.
  rewrite resolve_run. cbv zeta.
  repeat (destruct (fst _ =? 0)); intros [= <- <-]; cbn [ctx trace].
  all: split; [first [apply same_but_error_refl | apply same_but_error_set]|].
  all: split; [first [reflexivity | now intros []]|].
  all: eexists; split; reflexivity.
Qed.

(** Trace and session across the loop of lines 130-144: the descriptors it
    leaves open are the one it returns, if it returns one. *)
Lemma connect_loop_frame (res : list addrinfo) (m : machine) :
  exists s m' evs,
    connect_loop pf res (-1) m = (Some s, m') /\
    same_but_error (ctx m) (ctx m') /\
    (res = [] -> m' = m) /\
    trace m' = trace m ++ evs /\
    open_fds evs = (if s =? -1 then [] else [s]).
Proof.
  revert m. induction res as [|ai res IH]; intros m.
  - exists (-1), m, []. cbn. rewrite app_nil_r.
    repeat split. apply same_but_error_refl.
  - rewrite connect_loop_cons. cbv zeta.
    set (r := p_socket pf (clock m) (ai_family ai) (ai_socktype ai)
                (ai_protocol ai)).
    set (c := p_connect pf (S (clock m)) (fst r) (ai_addr ai)).
    destruct (fst r =? -1) eqn:E1.
    + apply Z.eqb_eq in E1. rewrite E1.
      match goal with |- context [connect_loop pf res (-1) ?m1] =>
        destruct (IH m1) as (s & m' & evs & Hrun & Hctx & _ & Htr & Hop) end.
      exists s, m'. eexists. split; [exact Hrun|].
      split; [|split; [discriminate|split]].
      * eapply same_but_error_trans; [|exact Hctx]. apply same_but_error_set.
      * rewrite Htr. cbn [trace]. rewrite <- app_assoc. reflexivity.
      * rewrite <- Hop. reflexivity.
    + destruct (fst c =? -1) eqn:E2.
      * match goal with |- context [connect_loop pf res (-1) ?m1] =>
          destruct (IH m1) as (s & m' & evs & Hrun & Hctx & _ & Htr & Hop) end.
        exists s, m'. eexists. split; [exact Hrun|].
        split; [|split; [discriminate|split]].
        -- eapply same_but_error_trans; [|exact Hctx].
           apply same_but_error_set.
        -- rewrite Htr. cbn [trace]. rewrite <- app_assoc. reflexivity.
        -- rewrite <- Hop. unfold open_fds. cbn [app fold_left open_step].
           rewrite E1. cbn [app remove_fd]. now rewrite Z.eqb_refl.
      * eexists. eexists. eexists. split; [reflexivity|].
        split; [apply same_but_error_refl|]. split; [discriminate|].
        split; [reflexivity|]. rewrite E1.
        unfold open_fds. cbn [fold_left open_step]. now rewrite E1.
Qed.

(** [tls_connect_common] opens and closes no descriptor. *)
Lemma tls_connect_common_trace (sn : option string) (m m' : machine)
    (rv : Z) :
  tls_connect_common pf sn m = (rv, m') ->
  exists evs, trace m' = trace m ++ evs /\ fd_neutral evs = true.
Proof.
  open_session m. intros H.
  unfold_model. destruct sn as [s|]; split_run H.
  all: inversion H; subst; clear H; compute_state.
  all: rewrite <- ?app_assoc.
  all: first [ eexists; split; [reflexivity|]; reflexivity
             | exists []; split; [now rewrite app_nil_r | reflexivity] ].
Qed.

Lemma same_binding_trans (c1 c2 c3 : tls) :
  same_binding c1 c2 -> same_binding c2 c3 -> same_binding c1 c3.
Proof.
  unfold same_binding.
  intros (A1 & A2 & A3 & A4 & A5 & A6 & A7 & A8 & A9)
         (B1 & B2 & B3 & B4 & B5 & B6 & B7 & B8 & B9).
  repeat split; congruence.
Qed.

(** A failed [tls_connect_common] leaves role, configuration, state and
    transport as they were. *)
Lemma tls_connect_common_failed_binding (sn : option string)
    (m m' : machine) :
  tls_connect_common pf sn m = (-1, m') -> same_binding (ctx m) (ctx m').
Proof.
  intros H.
  destruct (tls_connect_common_frame pf _ _ _ _ H)
    as (_ & Hst & Hfl & Hcf & Hso & Hfr & Hfw & Hrc & Hwc & Hca).
  cbn in Hst. repeat split; assumption.
Qed.

(** Lines 108-160 as a whole. *)
Lemma connect_tail_spec (h : string) (p sn : option string) (m m' : machine)
    (rv : Z) :
  c_function (connect_tail pf h p sn) (fun m => m) m = (rv, m') ->
  exists evs,
    trace m' = trace m ++ evs /\
    ((rv = 0 /\
      exists s mc mc',
        0 <= s /\ open_fds evs = [s] /\
        same_but_error (ctx m) (ctx mc) /\
        tls_connect_common pf (Some (name_or_host sn h)) mc = (0, mc') /\
        ctx m' =
          set_socket s
            (set_cb_arg None
               (set_write_cb (Some tls_fd_write_cb)
                  (set_fd_write s
                     (set_read_cb (Some tls_fd_read_cb)
                        (set_fd_read s (ctx mc'))))))) \/
     (rv = -1 /\ open_fds evs = [] /\ same_binding (ctx m) (ctx m'))).
Proof.
  unfold c_function, connect_tail. unfold bind at 1.
  destruct (resolve pf h p m) as [[res0|] m1] eqn:Eres;
    destruct (resolve_frame _ _ _ _ _ Eres)
      as (Hc1 & _ & evs1 & Htr1 & Hn1).
  2:{ intros [= <- <-]. exists evs1. split; [exact Htr1|]. right.
      split; [reflexivity|]. split.
      - rewrite <- (app_nil_r evs1). now apply open_fds_neutral_l.
      - now apply same_but_error_binding. }
  unfold bind at 1.
  destruct (connect_loop_frame res0 m1)
    as (s & m2 & evs2 & Eloop & Hc2 & _ & Htr2 & Hop2).
  rewrite Eloop.
  unfold bind at 1. unfold freeaddrinfo at 1, emit at 1.
  unfold bind at 1.
  assert (Hc12 : same_but_error (ctx m) (ctx m2))
    by (eapply same_but_error_trans; eassumption).
  destruct (s =? -1) eqn:Es.
  { cbn [goto_err]. intros [= <- <-].
    exists (evs1 ++ evs2 ++ [EvFreeaddrinfo]). split.
    - cbn [log trace]. rewrite Htr2, Htr1. now rewrite <- !app_assoc.
    - right. split; [reflexivity|]. split.
      + rewrite (open_fds_neutral_l _ _ Hn1).
        now rewrite (open_fds_neutral_r evs2 [EvFreeaddrinfo] eq_refl).
      + now apply same_but_error_binding. }
  cbn [ret]. unfold bind at 1. unfold call at 1.
  unfold tls_connect_socket. rewrite tls_connect_fds_run.
  set (mf := log EvFreeaddrinfo m2).
  assert (Hopen : forall evs3 : list event,
            fd_neutral evs3 = true ->
            open_fds (evs1 ++ evs2 ++ [EvFreeaddrinfo] ++ evs3) = [s]).
  { intros evs3 H3. rewrite (open_fds_neutral_l _ _ Hn1).
    rewrite (open_fds_neutral_r evs2 ([EvFreeaddrinfo] ++ evs3)); [exact Hop2|].
    exact H3. }
  assert (Hclosed : forall evs3 : list event,
            fd_neutral evs3 = true ->
            open_fds (evs1 ++ evs2 ++ [EvFreeaddrinfo] ++ evs3 ++ [EvClose s])
            = []).
  { intros evs3 H3.
    replace (evs1 ++ evs2 ++ [EvFreeaddrinfo] ++ evs3 ++ [EvClose s])
      with ((evs1 ++ evs2 ++ [EvFreeaddrinfo] ++ evs3) ++ [EvClose s])
      by (now rewrite <- !app_assoc).
    rewrite open_fds_app, (Hopen evs3 H3). cbn. now rewrite Z.eqb_refl. }
  assert (Htrf : trace mf = trace m ++ evs1 ++ evs2 ++ [EvFreeaddrinfo]).
  { unfold mf. cbn [log trace]. rewrite Htr2, Htr1.
    now rewrite <- !app_assoc. }
  destruct ((s <? 0) || (s <? 0)) eqn:Eneg.
  { cbn [negb Z.eqb]. unfold bind at 1, sys_close at 1, emit at 1.
    cbn [goto_err]. intros [= <- <-].
    exists (evs1 ++ evs2 ++ [EvFreeaddrinfo] ++ [] ++ [EvClose s]). split.
    - cbn [log upd_ctx trace app]. rewrite Htrf.
      now rewrite <- !app_assoc.
    - right. split; [reflexivity|]. split; [now apply Hclosed|].
      cbn [log upd_ctx ctx]. apply same_but_error_binding.
      eapply same_but_error_trans; [exact Hc12|].
      unfold mf. cbn [log ctx]. apply same_but_error_set. }
  destruct (tls_connect_common pf
              (Some match sn with Some sn0 => sn0 | None => h end) mf)
    as [r mc'] eqn:Ecommon.
  destruct (tls_connect_common_trace _ _ _ _ Ecommon) as (evs3 & Htr3 & Hn3).
  destruct (tls_connect_common_frame pf _ _ _ _ Ecommon) as ([-> | ->] & _).
  - cbn [negb Z.eqb ret]. unfold bind at 1. cbn [modify_ctx ret].
    intros [= <- <-].
    exists (evs1 ++ evs2 ++ [EvFreeaddrinfo] ++ evs3). split.
    + cbn [upd_ctx trace]. rewrite Htr3, Htrf. now rewrite <- !app_assoc.
    + left. split; [reflexivity|].
      exists s, mf, mc'. split.
      { apply orb_false_iff in Eneg. destruct Eneg as [Eneg _].
        now apply Z.ltb_ge in Eneg. }
      split; [now apply Hopen|]. split; [exact Hc12|].
      split; [exact Ecommon|]. reflexivity.
  - cbn [negb Z.eqb]. unfold bind at 1, sys_close at 1, emit at 1.
    cbn [goto_err]. intros [= <- <-].
    exists (evs1 ++ evs2 ++ [EvFreeaddrinfo] ++ evs3 ++ [EvClose s]). split.
    + cbn [log trace]. rewrite Htr3, Htrf. now rewrite <- !app_assoc.
    + right. split; [reflexivity|]. split; [now apply Hclosed|].
      cbn [log ctx].
      eapply same_binding_trans;
        [apply same_but_error_binding; exact Hc12|].
      exact (tls_connect_common_failed_binding _ _ _ Ecommon).
Qed.

(** [tls_connect_servername] as a whole: what it appended to the trace and
    what it left of the session. *)
Lemma tls_connect_servername_spec (host port sn : option string)
    (m m' : machine) (rv : Z) :
  tls_connect_servername pf host port sn m = (rv, m') ->
  exists evs,
    trace m' = trace m ++ evs /\
    ((rv = 0 /\
      exists h s mc mc',
        (port <> None -> host = Some h) /\
        0 <= s /\ open_fds evs = [s] /\
        same_but_error (ctx m) (ctx mc) /\
        tls_connect_common pf (Some (name_or_host sn h)) mc = (0, mc') /\
        ctx m' =
          set_socket s
            (set_cb_arg None
               (set_write_cb (Some tls_fd_write_cb)
                  (set_fd_write s
                     (set_read_cb (Some tls_fd_read_cb)
                        (set_fd_read s (ctx mc'))))))) \/
     (rv = -1 /\ open_fds evs = [] /\ same_binding (ctx m) (ctx m'))).
Proof.
  rewrite tls_connect_servername_cases.
  assert (Hfail : forall (e : option tls_error) (m0 : machine),
            ctx m0 = ctx m -> trace m0 = trace m ->
            (-1, upd_ctx (set_error e) m0) = (rv, m') ->
            exists evs,
              trace m' = trace m ++ evs /\
              ((rv = 0 /\
                exists h s mc mc',
                  (port <> None -> host = Some h) /\
                  0 <= s /\ open_fds evs = [s] /\
                  same_but_error (ctx m) (ctx mc) /\
                  tls_connect_common pf (Some (name_or_host sn h)) mc =
                    (0, mc') /\
                  ctx m' =
                    set_socket s
                      (set_cb_arg None
                         (set_write_cb (Some tls_fd_write_cb)
                            (set_fd_write s
                               (set_read_cb (Some tls_fd_read_cb)
                                  (set_fd_read s (ctx mc'))))))) \/
               (rv = -1 /\ open_fds evs = [] /\
                same_binding (ctx m) (ctx m')))).
  { intros e m0 Hc Ht [= <- <-]. exists []. split.
    - cbn [upd_ctx trace]. now rewrite Ht, app_nil_r.
    - right. split; [reflexivity|]. split; [reflexivity|].
      cbn [upd_ctx ctx]. rewrite Hc. apply same_but_error_binding.
      apply same_but_error_set. }
  destruct (Z.land (flags (ctx m)) TLS_CLIENT =? 0);
    [now apply Hfail|].
  destruct host as [host|]; [|now apply Hfail].
  destruct port as [port|].
  - intros H. destruct (connect_tail_spec _ _ _ _ _ _ H)
      as (evs & Htr & [(-> & s & mc & mc' & Hs & Hop & Hc & Hrun & Hctx) | Hf]).
    + exists evs. split; [exact Htr|]. left. split; [reflexivity|].
      exists host, s, mc, mc'. repeat split; assumption.
    + exists evs. split; [exact Htr|]. now right.
  - destruct (p_tls_host_port pf (clock m) host) as [[r hs] ps].
    destruct (r =? -1); [now apply Hfail|].
    destruct (negb (r =? 0)); [now apply Hfail|].
    intros H. destruct (connect_tail_spec _ _ _ _ _ _ H)
      as (evs & Htr & [(-> & s & mc & mc' & Hs & Hop & Hc & Hrun & Hctx) | Hf]).
    + exists evs. split; [exact Htr|]. left. split; [reflexivity|].
      eexists. exists s, mc, mc'. split; [now intros []|].
      repeat split; try eassumption.
    + exists evs. split; [exact Htr|]. now right.
Qed.

(** X7. Descriptors opened by [tls_connect_servername]. When it returns 0,
    the one descriptor it opened and did not close is the session's
    [socket], it is not negative, it is also [fd_read] and [fd_write], and
    the descriptor callbacks are installed with a null argument. When it
    returns -1, every descriptor it opened is closed again, and [socket],
    descriptors, callbacks and argument of the session are as before. *)
Theorem descriptors_accounted (host port sn : option string) (m m' : machine)
    (rv : Z) :
  tls_connect_servername pf host port sn m = (rv, m') ->
  exists evs,
    trace m' = trace m ++ evs /\
    ((rv = 0 /\
      0 <= socket (ctx m') /\
      open_fds evs = [socket (ctx m')] /\
      fd_read (ctx m') = socket (ctx m') /\
      fd_write (ctx m') = socket (ctx m') /\
      read_cb (ctx m') = Some tls_fd_read_cb /\
      write_cb (ctx m') = Some tls_fd_write_cb /\
      cb_arg (ctx m') = None) \/
     (rv = -1 /\
      open_fds evs = [] /\
      socket (ctx m') = socket (ctx m) /\
      fd_read (ctx m') = fd_read (ctx m) /\
      fd_write (ctx m') = fd_write (ctx m) /\
      read_cb (ctx m') = read_cb (ctx m) /\
      write_cb (ctx m') = write_cb (ctx m) /\
      cb_arg (ctx m') = cb_arg (ctx m))).
Proof.
  intros H. destruct (tls_connect_servername_spec _ _ _ _ _ _ H)
    as (evs & Htr & [(-> & h & s & mc & mc' & _ & Hs & Hop & _ & _ & Hctx)
                    | (-> & Hop & Hb)]).
  - exists evs. split; [exact Htr|]. left. rewrite Hctx. cbn.
    repeat split; assumption.
  - exists evs. split; [exact Htr|]. right.
    destruct Hb as (_ & _ & _ & B4 & B5 & B6 & B7 & B8 & B9).
    repeat split; assumption.
Qed.

Lemma tls_connect_common_bootstrapped (sn : option string) (m m' : machine) :
  tls_connect_common pf sn m = (0, m') -> bootstrapped pf (ctx m').
Proof.
  intros H. apply tls_connect_common_ok in H.
  destruct H as (_ & _ & _ & _ & _ & ->). cbn. split.
  - apply land_lor_absorb.
  - eexists. split; [reflexivity|]. cbn. repeat split. discriminate.
Qed.

(** X8. A return value 0 of any entry point means the session is
    bootstrapped: [TLS_CONNECTED] is set, the connection object is there
    with the default RSA verification, the configured key (if of a bound
    type) and the handshake reset; for the four binding entry points both
    I/O callbacks are non-null. *)
Theorem success_means_bootstrapped (m m' : machine) :
  (forall sn, tls_connect_common pf sn m = (0, m') ->
              bootstrapped pf (ctx m')) /\
  (forall fr fw sn,
     tls_connect_fds pf fr fw sn m = (0, m') ->
     bootstrapped pf (ctx m') /\
     read_cb (ctx m') <> None /\ write_cb (ctx m') <> None) /\
  (forall rcb wcb arg sn,
     tls_connect_cbs pf rcb wcb arg sn m = (0, m') ->
     bootstrapped pf (ctx m') /\
     read_cb (ctx m') <> None /\ write_cb (ctx m') <> None) /\
  (forall host port sn,
     tls_connect_servername pf host port sn m = (0, m') ->
     bootstrapped pf (ctx m') /\
     read_cb (ctx m') <> None /\ write_cb (ctx m') <> None) /\
  (forall host port,
     tls_connect pf host port m = (0, m') ->
     bootstrapped pf (ctx m') /\
     read_cb (ctx m') <> None /\ write_cb (ctx m') <> None).
Proof.
  assert (Hs : forall host port sn,
     tls_connect_servername pf host port sn m = (0, m') ->
     bootstrapped pf (ctx m') /\
     read_cb (ctx m') <> None /\ write_cb (ctx m') <> None).
  { intros host port sn H.
    destruct (tls_connect_servername_spec _ _ _ _ _ _ H)
      as (evs & _ & [(_ & h & s & mc & mc' & _ & _ & _ & _ & Hrun & Hctx)
                    | (Hrv & _)]); [|discriminate Hrv].
    pose proof (tls_connect_common_bootstrapped _ _ _ Hrun) as Hb.
    rewrite Hctx. split; [exact Hb|]. cbn. split; discriminate. }
  split; [|split; [|split; [|split]]].
  - intros sn. apply tls_connect_common_bootstrapped.
  - intros fr fw sn H. rewrite tls_connect_fds_run in H.
    destruct ((fr <? 0) || (fw <? 0)); [discriminate H|].
    destruct (tls_connect_common pf sn m) as [r m1] eqn:E.
    destruct (tls_connect_common_frame pf _ _ _ _ E) as ([-> | ->] & _);
      cbn in H; [|discriminate H].
    injection H as <-.
    pose proof (tls_connect_common_bootstrapped _ _ _ E) as Hb.
    split; [exact Hb|]. cbn. split; discriminate.
  - intros rcb wcb arg sn H. rewrite tls_connect_cbs_run in H.
    destruct (tls_connect_common pf sn m) as [r m1] eqn:E.
    destruct (tls_connect_common_frame pf _ _ _ _ E) as ([-> | ->] & _);
      cbn in H; [|discriminate H].
    pose proof (tls_connect_common_bootstrapped _ _ _ E) as Hb.
    destruct rcb as [r|]; [|discriminate H].
    destruct wcb as [w|]; [|discriminate H].
    injection H as <-. split; [exact Hb|]. cbn. split; discriminate.
  - exact Hs.
  - intros host port. apply Hs.
Qed.

Lemma tls_connect_servername_frame (host port sn : option string)
    (m m' : machine) (rv : Z) :
  tls_connect_servername pf host port sn m = (rv, m') ->
  (rv = 0 \/ rv = -1) /\
  flags (ctx m') = flags (ctx m) /\
  config (ctx m') = config (ctx m) /\
  state (ctx m') =
    (if rv =? 0 then Z.lor (state (ctx m)) TLS_CONNECTED else state (ctx m)).
Proof.
  intros H. destruct (tls_connect_servername_spec _ _ _ _ _ _ H)
    as (evs & _ & [(-> & h & s & mc & mc' & _ & _ & _ & Hc & Hrun & Hctx)
                  | (-> & _ & Hb)]).
  - destruct (tls_connect_common_frame pf _ _ _ _ Hrun)
      as (_ & Hst & Hfl & Hcf & _).
    apply same_but_error_binding in Hc.
    destruct Hc as (C1 & C2 & C3 & _).
    rewrite Hctx. cbn. rewrite Hfl, Hcf, Hst. cbn.
    rewrite C1, C2, C3. repeat split; auto.
  - destruct Hb as (B1 & B2 & B3 & _). cbn. repeat split; auto.
Qed.

(** X9. Every entry point returns 0 or -1, leaves the role flags and the
    configuration of the session as they are, and changes the state at most
    by setting [TLS_CONNECTED], which it has done when it returns 0. *)
Theorem role_and_configuration_kept (m m' : machine) (rv : Z) :
  (exists sn, tls_connect_common pf sn m = (rv, m')) \/
  (exists fr fw sn, tls_connect_fds pf fr fw sn m = (rv, m')) \/
  (exists s sn, tls_connect_socket pf s sn m = (rv, m')) \/
  (exists rcb wcb arg sn, tls_connect_cbs pf rcb wcb arg sn m = (rv, m')) \/
  (exists host port sn, tls_connect_servername pf host port sn m = (rv, m')) \/
  (exists host port, tls_connect pf host port m = (rv, m')) ->
  (rv = 0 \/ rv = -1) /\
  flags (ctx m') = flags (ctx m) /\
  config (ctx m') = config (ctx m) /\
  (rv = 0 -> state (ctx m') = Z.lor (state (ctx m)) TLS_CONNECTED) /\
  (state (ctx m') = state (ctx m) \/
   state (ctx m') = Z.lor (state (ctx m)) TLS_CONNECTED).
Proof.
  assert (Hgen : forall (r : Z) (m1 : machine),
    (r = 0 \/ r = -1) /\
    flags (ctx m1) = flags (ctx m) /\
    config (ctx m1) = config (ctx m) /\
    state (ctx m1) =
      (if r =? 0 then Z.lor (state (ctx m)) TLS_CONNECTED
       else state (ctx m)) ->
    (r = 0 \/ r = -1) /\
    flags (ctx m1) = flags (ctx m) /\
    config (ctx m1) = config (ctx m) /\
    (r = 0 -> state (ctx m1) = Z.lor (state (ctx m)) TLS_CONNECTED) /\
    (state (ctx m1) = state (ctx m) \/
     state (ctx m1) = Z.lor (state (ctx m)) TLS_CONNECTED)).
  { intros r m1 (A & B & C & D). split; [exact A|]. split; [exact B|].
    split; [exact C|]. destruct A as [-> | ->]; cbn in D; split; auto.
    discriminate. }
  assert (Hc : forall sn r m1, tls_connect_common pf sn m = (r, m1) ->
    (r = 0 \/ r = -1) /\
    flags (ctx m1) = flags (ctx m) /\
    config (ctx m1) = config (ctx m) /\
    state (ctx m1) =
      (if r =? 0 then Z.lor (state (ctx m)) TLS_CONNECTED
       else state (ctx m))).
  { intros sn r m1 H.
    destruct (tls_connect_common_frame pf _ _ _ _ H) as (A & B & C & D & _).
    auto. }
  assert (Hf : forall fr fw sn, tls_connect_fds pf fr fw sn m = (rv, m') ->
    (rv = 0 \/ rv = -1) /\
    flags (ctx m') = flags (ctx m) /\
    config (ctx m') = config (ctx m) /\
    state (ctx m') =
      (if rv =? 0 then Z.lor (state (ctx m)) TLS_CONNECTED
       else state (ctx m))).
  { intros fr fw sn H. rewrite tls_connect_fds_run in H.
    destruct ((fr <? 0) || (fw <? 0)).
    - injection H as <- <-. cbn. auto.
    - destruct (tls_connect_common pf sn m) as [r m1] eqn:E.
      destruct (Hc _ _ _ E) as ([-> | ->] & B & C & D);
        cbn in H; injection H as <- <-; cbn in *; auto. }
  intros [(sn & H) | [(fr & fw & sn & H) | [(s & sn & H) |
          [(rcb & wcb & arg & sn & H) | [(host & port & sn & H) |
           (host & port & H)]]]]].
  - apply Hgen. now apply (Hc sn).
  - apply Hgen. now apply (Hf fr fw sn).
  - apply Hgen. now apply (Hf s s sn).
  - rewrite tls_connect_cbs_run in H.
    destruct (tls_connect_common pf sn m) as [r m1] eqn:E.
    destruct (Hc _ _ _ E) as ([-> | ->] & B & C & D); cbn in H, D.
    + destruct rcb, wcb; injection H as <- <-; cbn;
        repeat split; auto; discriminate.
    + injection H as <- <-. repeat split; auto. discriminate.
  - apply Hgen. now apply (tls_connect_servername_frame host port sn).
  - apply Hgen. now apply (tls_connect_servername_frame host port None).
Qed.

(** X10. When the configuration requires name verification and the server
    name in effect (the explicit one, or else the host) is an IPv4 or IPv6
    literal, [tls_connect_servername] never succeeds: it returns -1, the
    state is unchanged, and a connection it had opened is closed again. *)
Theorem literal_name_fails_verification (h port : string)
    (sn : option string) (m m' : machine) (rv : Z) :
  verify_name (config (ctx m)) <> 0 ->
  is_literal pf (strip_dot (name_or_host sn h)) = true ->
  tls_connect_servername pf (Some h) (Some port) sn m = (rv, m') ->
  rv = -1 /\
  state (ctx m') = state (ctx m) /\
  exists evs, trace m' = trace m ++ evs /\ open_fds evs = [].
Proof.
  intros Hv Hlit H.
  destruct (tls_connect_servername_spec _ _ _ _ _ _ H)
    as (evs & Htr & [(-> & h' & s & mc & mc' & Hh & _ & _ & Hc & Hrun & _)
                    | (-> & Hop & Hb)]).
  - exfalso. assert (Eh : h' = h).
    { assert (E : Some h = Some h') by (apply Hh; discriminate).
      now injection E. }
    subst h'. apply tls_connect_common_ok in Hrun.
    destruct Hrun as (_ & _ & Hsni & _).
    apply same_but_error_binding in Hc. destruct Hc as (_ & Hcf & _).
    rewrite Hcf in Hsni. apply (Hsni Hv).
    unfold sni_of. now rewrite Hlit.
  - split; [reflexivity|]. destruct Hb as (_ & _ & Hst & _).
    split; [exact Hst|]. now exists evs.
Qed.

(** X11. When [tls_connect_servername] returns 0, the session's
    [servername] is the explicit server name, or else the host, without one
    trailing dot, and the name handed to [br_ssl_client_reset] is that
    string, or absent if it is a literal address. *)
Theorem connect_sends_host_as_sni (h port : string) (sn : option string)
    (m m' : machine) :
  tls_connect_servername pf (Some h) (Some port) sn m = (0, m') ->
  servername (ctx m') = Some (strip_dot (name_or_host sn h)) /\
  exists cn,
    conn (ctx m') = Some cn /\
    cc_reset (client cn) = Some (sni_of pf (Some (name_or_host sn h))).
Proof.
  intros H.
  destruct (tls_connect_servername_spec _ _ _ _ _ _ H)
    as (evs & Htr & [(_ & h' & s & mc & mc' & Hh & _ & _ & Hc & Hrun & Hctx)
                    | (Hrv & _)]); [|discriminate Hrv].
  assert (Eh : h' = h).
  { assert (E : Some h = Some h') by (apply Hh; discriminate).
    now injection E. }
  subst h'. apply tls_connect_common_ok in Hrun.
  destruct Hrun as (_ & _ & _ & _ & _ & ->). rewrite Hctx. cbn.
  split; [reflexivity|]. eexists. split; reflexivity.
Qed.

(** X12. When resolution succeeds with an empty candidate list,
    [tls_connect_servername] returns -1 without opening a socket and without
    recording any error: the session, its error included, is as it was. *)
Theorem no_candidate_no_error (h port : string) (sn : option string)
    (m m1 : machine) :
  Z.land (flags (ctx m)) TLS_CLIENT <> 0 ->
  resolve pf h (Some port) m = (Some [], m1) ->
  tls_connect_servername pf (Some h) (Some port) sn m =
    (-1, log EvFreeaddrinfo m1) /\
  ctx (log EvFreeaddrinfo m1) = ctx m.
Proof.
  intros Hc Hres. apply Z.eqb_neq in Hc.
  rewrite tls_connect_servername_cases, Hc.
  unfold c_function, connect_tail. unfold bind at 1. rewrite Hres.
  split; [reflexivity|].
  destruct (resolve_frame _ _ _ _ _ Hres) as (_ & Hctx & _).
  cbn [log ctx]. apply Hctx. discriminate.
Qed.

(** X13. When the configuration requires OCSP stapling,
    [tls_connect_common] on a client session returns -1 before the
    connection object is allocated: [conn] and state are unchanged and no
    event is logged. Unless [strdup] failed first, the error is "OCSP
    stapling is not supported". *)
Theorem stapling_rejected_before_allocation (sn : option string)
    (m m' : machine) (rv : Z) :
  Z.land (flags (ctx m)) TLS_CLIENT <> 0 ->
  ocsp_require_stapling (config (ctx m)) <> 0 ->
  tls_connect_common pf sn m = (rv, m') ->
  rv = -1 /\
  conn (ctx m') = conn (ctx m) /\
  state (ctx m') = state (ctx m) /\
  trace m' = trace m /\
  ((forall s, sn = Some s -> p_strdup pf (clock m) s = true) ->
   error (ctx m') =
     Some (mk_error "OCSP stapling is not supported" None)).
Proof.
  open_session m. intros Hc Ho H.
  unfold_model. destruct sn as [s|]; split_run H.
  all: inversion H; subst; clear H; tidy; try congruence.
  all: cbn; repeat split; try reflexivity.
  all: intros Hd; specialize (Hd _ eq_refl); congruence.
Qed.

(** X14. When [strdup] fails on a client session, [tls_connect_common]
    returns -1 with the error "out of memory", and the session's
    [servername] is null afterwards, whatever it was before; nothing else
    of the session changes, and [strdup] was the only external call. *)
Theorem out_of_memory_clears_servername (s : string) (m : machine) :
  Z.land (flags (ctx m)) TLS_CLIENT <> 0 ->
  p_strdup pf (clock m) s = false ->
  exists m',
    tls_connect_common pf (Some s) m = (-1, m') /\
    ctx m' = set_error (Some (mk_error "out of memory" None))
               (set_servername None (ctx m)) /\
    clock m' = S (clock m) /\ trace m' = trace m.
Proof.
  intros Hc Hs. apply Z.eqb_neq in Hc.
  cbv beta iota delta [tls_connect_common tls_connect_common_body
    c_function bind get_ctx ret goto_err tls_set_errorx modify_ctx
    canonicalize strdup tick].
  rewrite Hc. cbn [fst snd]. rewrite Hs.
  eexists. split; [reflexivity|]. repeat split.
Qed.

(** X15. With a null server name [tls_connect_common] leaves the session's
    [servername] as it was, whatever it returns. It can only return 0 when
    name verification is off, and then the handshake is reset with no server
    name. *)
Theorem null_servername_keeps_field (m m' : machine) (rv : Z) :
  tls_connect_common pf None m = (rv, m') ->
  servername (ctx m') = servername (ctx m) /\
  (rv = 0 ->
   verify_name (config (ctx m)) = 0 /\
   exists cn, conn (ctx m') = Some cn /\ cc_reset (client cn) = Some None).
Proof.
  intros H. split.
  - revert H. open_session m. intros H. unfold_model. split_run H.
    all: inversion H; subst; clear H; reflexivity.
  - intros ->. apply tls_connect_common_ok in H.
    destruct H as (_ & _ & Hsni & _ & _ & ->). cbn. split.
    + destruct (Z.eq_dec (verify_name (config (ctx m))) 0) as [E | E];
        [exact E|]. now destruct (Hsni E).
    + eexists. split; reflexivity.
Qed.

(** X16. [tls_client] returns null exactly when [tls_init] returned -1 or
    [tls_new] returned null. Otherwise it returns the session of [tls_new]
    with [TLS_CLIENT] set and no other change: no flag of the new session is
    cleared, and the role check of the entry points passes when
    [TLS_CLIENT] is not zero. *)
Theorem tls_client_sets_role (init : Z) (new : option tls) :
  (tls_client pf init new = None <-> init = -1 \/ new = None) /\
  (forall c,
     tls_client pf init new = Some c ->
     exists c0,
       new = Some c0 /\
       c = set_flags (Z.lor (flags c0) TLS_CLIENT) c0 /\
       Z.land (flags c) TLS_CLIENT = TLS_CLIENT /\
       Z.land (flags c) (flags c0) = flags c0 /\
       (TLS_CLIENT <> 0 -> Z.land (flags c) TLS_CLIENT <> 0)).
Proof.
  unfold tls_client. split.
  - destruct (init =? -1) eqn:E.
    + apply Z.eqb_eq in E. split; auto.
    + apply Z.eqb_neq in E. destruct new as [c0|]; split; auto.
      * discriminate.
      * intros [H | H]; [contradiction | discriminate].
  - intros c H. destruct (init =? -1); [discriminate H|].
    destruct new as [c0|]; [|discriminate H]. injection H as <-.
    exists c0. split; [reflexivity|]. split; [reflexivity|]. cbn.
    assert (A : Z.land (Z.lor (flags c0) TLS_CLIENT) TLS_CLIENT = TLS_CLIENT)
      by apply land_lor_absorb.
    split; [exact A|]. split.
    + rewrite Z.lor_comm. apply land_lor_absorb.
    + intros Hn. now rewrite A.
Qed.

End MoreFacts.

(** ** The further facts on concrete sessions *)

Import Scenarios.

Lemma invalid_descriptors_rejected_witness :
  (-1 < 0 \/ 3 < 0) /\
  tls_connect_fds quiet (-1) 3 (Some "example.com") (boot no_keys) =
    (-1, upd_ctx (set_error
                    (Some (mk_error "invalid file descriptors" None)))
           (boot no_keys)).
Proof.
  assert (H : -1 < 0 \/ 3 < 0) by (left; reflexivity).
  split; [exact H|].
  exact (proj1 (invalid_descriptors_rejected quiet (-1) 3
                  (Some "example.com") (boot no_keys) H)).
Defined.

Lemma descriptors_bound_on_success_witness :
  0 <= 3 /\ 0 <= 4 /\
  tls_connect_fds quiet 3 4 None (boot no_keys) =
    (0, snd (tls_connect_fds quiet 3 4 None (boot no_keys))) /\
  exists m1,
    tls_connect_common quiet None (boot no_keys) = (0, m1) /\
    fd_read (ctx (snd (tls_connect_fds quiet 3 4 None (boot no_keys)))) = 3 /\
    fd_write (ctx (snd (tls_connect_fds quiet 3 4 None (boot no_keys)))) = 4.
Proof.
  assert (H3 : 0 <= 3) by discriminate.
  assert (H4 : 0 <= 4) by discriminate.
  assert (Hrun : tls_connect_fds quiet 3 4 None (boot no_keys) =
                 (0, snd (tls_connect_fds quiet 3 4 None (boot no_keys))))
    by run.
  split; [exact H3|]. split; [exact H4|]. split; [exact Hrun|].
  destruct (descriptors_bound_on_success quiet 3 4 None (boot no_keys) _ 0
              H3 H4 Hrun)
    as (m1 & Hc & [(_ & Hr & Hw & _) | (Hrv & _)]); [|discriminate Hrv].
  exists m1. split; [exact Hc|]. split; [exact Hr | exact Hw].
Defined.

(** Callbacks bound on a session that was bound to descriptors 3 and 4: the
    descriptors stay. *)
Lemma callbacks_bound_on_success_witness :
  tls_connect_cbs quiet (Some (user_cb 1)) (Some (user_cb 2)) (Some 9) None
    rebound =
    (0, snd (tls_connect_cbs quiet (Some (user_cb 1)) (Some (user_cb 2))
               (Some 9) None rebound)) /\
  fd_read (ctx (snd (tls_connect_cbs quiet (Some (user_cb 1))
                       (Some (user_cb 2)) (Some 9) None rebound))) = 3 /\
  fd_write (ctx (snd (tls_connect_cbs quiet (Some (user_cb 1))
                        (Some (user_cb 2)) (Some 9) None rebound))) = 4.
Proof.
  assert (Hrun :
    tls_connect_cbs quiet (Some (user_cb 1)) (Some (user_cb 2)) (Some 9) None
      rebound =
    (0, snd (tls_connect_cbs quiet (Some (user_cb 1)) (Some (user_cb 2))
               (Some 9) None rebound))) by run.
  split; [exact Hrun|].
  destruct (callbacks_bound_on_success quiet (user_cb 1) (user_cb 2) (Some 9)
              None rebound _ 0 Hrun) as (Hr & Hw & _).
  split; [rewrite Hr | rewrite Hw]; run.
Defined.

Lemma not_a_client_rejected_witness :
  Z.land (flags (ctx server_boot)) (c_TLS_CLIENT quiet) = 0 /\
  tls_connect quiet (Some "example.com") (Some "443") server_boot =
    (-1, upd_ctx (set_error (Some (mk_error "not a client context" None)))
           server_boot).
Proof.
  assert (H : Z.land (flags (ctx server_boot)) (c_TLS_CLIENT quiet) = 0)
    by run.
  split; [exact H|].
  destruct (not_a_client_rejected quiet server_boot H) as (_ & Hc & _).
  apply Hc.
Defined.

Lemma missing_host_or_port_witness :
  Z.land (flags (ctx (boot no_keys))) (c_TLS_CLIENT quiet) <> 0 /\
  (exists m',
     tls_connect_servername quiet None (Some "443") None (boot no_keys) =
       (-1, m') /\
     error (ctx m') = Some (mk_error "host not specified" None) /\
     clock m' = 0%nat /\ trace m' = []) /\
  (exists m',
     tls_connect_servername quiet (Some "example.com") None None
       (boot no_keys) = (-1, m') /\
     error (ctx m') = Some (mk_error "no port provided" None) /\
     clock m' = 1%nat /\ trace m' = []).
Proof.
  assert (Hc : Z.land (flags (ctx (boot no_keys))) (c_TLS_CLIENT quiet) <> 0)
    by (vm_compute; discriminate).
  split; [exact Hc|]. split.
  - destruct (proj1 (missing_host_or_port quiet None None (boot no_keys) Hc)
                (Some "443") eq_refl) as (m' & Hrun & Hctx & Hclock & Htrace).
    exists m'. split; [exact Hrun|].
    rewrite Hctx, Hclock, Htrace. repeat split.
  - destruct (missing_host_or_port quiet (Some "example.com") None
                (boot no_keys) Hc) as [_ Hp].
    destruct (Hp "example.com" 1 None None eq_refl) as [_ Hnp]; [run|].
    destruct Hnp as (m' & Hrun & Hctx & Hclock & Htrace);
      [discriminate | discriminate |].
    exists m'. split; [exact Hrun|].
    rewrite Hctx, Hclock, Htrace. repeat split.
Defined.

Lemma host_with_port_as_separate_arguments_witness :
  Z.land (flags (ctx (boot no_keys))) (c_TLS_CLIENT one_connects) <> 0 /\
  p_tls_host_port one_connects (clock (boot no_keys)) "example.com:443" =
    (0, Some "example.com", Some "443") /\
  tls_connect_servername one_connects (Some "example.com:443") None None
    (boot no_keys) =
  tls_connect_servername one_connects (Some "example.com") (Some "443") None
    (next_clock (boot no_keys)).
Proof.
  assert (Hc : Z.land (flags (ctx (boot no_keys)))
                      (c_TLS_CLIENT one_connects) <> 0)
    by (vm_compute; discriminate).
  assert (Hp : p_tls_host_port one_connects (clock (boot no_keys))
                 "example.com:443" = (0, Some "example.com", Some "443"))
    by run.
  split; [exact Hc|]. split; [exact Hp|].
  exact (host_with_port_as_separate_arguments one_connects "example.com:443"
           (Some "example.com") "443" None (boot no_keys) Hc Hp).
Defined.

Lemma descriptors_accounted_witness :
  tls_connect_servername one_connects (Some "example.com") (Some "443") None
    (boot no_keys) =
    (0, snd (tls_connect_servername one_connects (Some "example.com")
               (Some "443") None (boot no_keys))) /\
  exists evs,
    trace (snd (tls_connect_servername one_connects (Some "example.com")
                  (Some "443") None (boot no_keys))) =
      trace (boot no_keys) ++ evs /\
    open_fds evs = [4].
Proof.
  assert (Hrun :
    tls_connect_servername one_connects (Some "example.com") (Some "443")
      None (boot no_keys) =
    (0, snd (tls_connect_servername one_connects (Some "example.com")
               (Some "443") None (boot no_keys)))) by run.
  split; [exact Hrun|].
  destruct (descriptors_accounted one_connects _ _ _ _ _ _ Hrun)
    as (evs & Htr & [(_ & _ & Hop & _) | (Hrv & _)]); [|discriminate Hrv].
  exists evs. split; [exact Htr|]. rewrite Hop. run.
Defined.

Lemma success_means_bootstrapped_witness :
  tls_connect_fds quiet 3 4 None (boot no_keys) =
    (0, snd (tls_connect_fds quiet 3 4 None (boot no_keys))) /\
  bootstrapped quiet
    (ctx (snd (tls_connect_fds quiet 3 4 None (boot no_keys)))).
Proof.
  assert (Hrun : tls_connect_fds quiet 3 4 None (boot no_keys) =
                 (0, snd (tls_connect_fds quiet 3 4 None (boot no_keys))))
    by run.
  split; [exact Hrun|].
  destruct (success_means_bootstrapped quiet (boot no_keys)
              (snd (tls_connect_fds quiet 3 4 None (boot no_keys))))
    as (_ & Hf & _).
  exact (proj1 (Hf 3 4 None Hrun)).
Defined.

Lemma role_and_configuration_kept_witness :
  (exists rcb wcb arg sn,
     tls_connect_cbs quiet rcb wcb arg sn (boot rsa_key) =
       (-1, snd (tls_connect_cbs quiet None None None None (boot rsa_key))))
  /\
  flags (ctx (snd (tls_connect_cbs quiet None None None None
                     (boot rsa_key)))) = 1 /\
  config (ctx (snd (tls_connect_cbs quiet None None None None
                      (boot rsa_key)))) = rsa_key.
Proof.
  assert (Hrun :
    exists rcb wcb arg sn,
      tls_connect_cbs quiet rcb wcb arg sn (boot rsa_key) =
        (-1, snd (tls_connect_cbs quiet None None None None (boot rsa_key)))).
  { exists None, None, None, None. run. }
  split; [exact Hrun|].
  destruct (role_and_configuration_kept quiet (boot rsa_key) _ (-1)
              (or_intror (or_intror (or_intror (or_introl Hrun)))))
    as (_ & Hfl & Hcf & _).
  split; [rewrite Hfl | rewrite Hcf]; run.
Defined.

(** Connecting to the literal address "192.0.2.1" with name verification
    on: the connection is made and closed again. *)
Lemma literal_name_fails_verification_witness :
  verify_name (config (ctx (boot verifying))) <> 0 /\
  is_literal one_connects (strip_dot (name_or_host None "192.0.2.1")) = true
  /\
  tls_connect_servername one_connects (Some "192.0.2.1") (Some "443") None
    (boot verifying) =
    (-1, snd (tls_connect_servername one_connects (Some "192.0.2.1")
                (Some "443") None (boot verifying))) /\
  exists evs,
    trace (snd (tls_connect_servername one_connects (Some "192.0.2.1")
                  (Some "443") None (boot verifying))) =
      trace (boot verifying) ++ evs /\
    In (EvConnect 4 [1] 0 0) evs /\ open_fds evs = [].
Proof.
  assert (Hv : verify_name (config (ctx (boot verifying))) <> 0)
    by (vm_compute; discriminate).
  assert (Hl : is_literal one_connects
                 (strip_dot (name_or_host None "192.0.2.1")) = true) by run.
  assert (Hrun :
    tls_connect_servername one_connects (Some "192.0.2.1") (Some "443") None
      (boot verifying) =
    (-1, snd (tls_connect_servername one_connects (Some "192.0.2.1")
                (Some "443") None (boot verifying)))) by run.
  split; [exact Hv|]. split; [exact Hl|]. split; [exact Hrun|].
  destruct (literal_name_fails_verification one_connects "192.0.2.1" "443"
              None (boot verifying) _ (-1) Hv Hl Hrun)
    as (_ & _ & evs & Htr & Hop).
  exists evs. split; [exact Htr|]. split; [|exact Hop].
  vm_compute in Htr. rewrite <- Htr. vm_compute. tauto.
Defined.

Lemma connect_sends_host_as_sni_witness :
  tls_connect_servername one_connects (Some "example.com.") (Some "443") None
    (boot no_keys) =
    (0, snd (tls_connect_servername one_connects (Some "example.com.")
               (Some "443") None (boot no_keys))) /\
  servername (ctx (snd (tls_connect_servername one_connects
                          (Some "example.com.") (Some "443") None
                          (boot no_keys)))) = Some "example.com".
Proof.
  assert (Hrun :
    tls_connect_servername one_connects (Some "example.com.") (Some "443")
      None (boot no_keys) =
    (0, snd (tls_connect_servername one_connects (Some "example.com.")
               (Some "443") None (boot no_keys)))) by run.
  split; [exact Hrun|].
  rewrite (proj1 (connect_sends_host_as_sni one_connects "example.com." "443"
                    None (boot no_keys) _ Hrun)).
  run.
Defined.

Lemma no_candidate_no_error_witness :
  Z.land (flags (ctx (boot no_keys))) (c_TLS_CLIENT no_candidates) <> 0 /\
  resolve no_candidates "example.com" (Some "443") (boot no_keys) =
    (Some [],
     snd (resolve no_candidates "example.com" (Some "443") (boot no_keys))) /\
  fst (tls_connect_servername no_candidates (Some "example.com") (Some "443")
         None (boot no_keys)) = -1 /\
  error (ctx (snd (tls_connect_servername no_candidates (Some "example.com")
                     (Some "443") None (boot no_keys)))) = None.
Proof.
  assert (Hc : Z.land (flags (ctx (boot no_keys)))
                      (c_TLS_CLIENT no_candidates) <> 0)
    by (vm_compute; discriminate).
  assert (Hres :
    resolve no_candidates "example.com" (Some "443") (boot no_keys) =
    (Some [],
     snd (resolve no_candidates "example.com" (Some "443") (boot no_keys))))
    by run.
  split; [exact Hc|]. split; [exact Hres|].
  destruct (no_candidate_no_error no_candidates "example.com" "443" None
              (boot no_keys) _ Hc Hres) as [Hrun Hctx].
  rewrite Hrun. cbn [fst snd]. split; [reflexivity|]. rewrite Hctx. run.
Defined.

Lemma stapling_rejected_before_allocation_witness :
  Z.land (flags (ctx (boot stapling))) (c_TLS_CLIENT quiet) <> 0 /\
  ocsp_require_stapling (config (ctx (boot stapling))) <> 0 /\
  tls_connect_common quiet None (boot stapling) =
    (-1, snd (tls_connect_common quiet None (boot stapling))) /\
  conn (ctx (snd (tls_connect_common quiet None (boot stapling)))) = None /\
  error (ctx (snd (tls_connect_common quiet None (boot stapling)))) =
    Some (mk_error "OCSP stapling is not supported" None).
Proof.
  assert (Hc : Z.land (flags (ctx (boot stapling))) (c_TLS_CLIENT quiet) <> 0)
    by (vm_compute; discriminate).
  assert (Ho : ocsp_require_stapling (config (ctx (boot stapling))) <> 0)
    by (vm_compute; discriminate).
  assert (Hrun : tls_connect_common quiet None (boot stapling) =
                 (-1, snd (tls_connect_common quiet None (boot stapling))))
    by run.
  split; [exact Hc|]. split; [exact Ho|]. split; [exact Hrun|].
  destruct (stapling_rejected_before_allocation quiet None (boot stapling) _
              (-1) Hc Ho Hrun) as (_ & Hconn & _ & _ & Herr).
  split; [rewrite Hconn; run|]. apply Herr. intros s [=].
Defined.

(** [strdup] fails on a session that had a server name: the name is gone. *)
Lemma out_of_memory_clears_servername_witness :
  Z.land (flags (ctx rebound)) (c_TLS_CLIENT no_memory) <> 0 /\
  p_strdup no_memory (clock rebound) "example.com" = false /\
  servername (ctx rebound) = Some "old.example" /\
  exists m',
    tls_connect_common no_memory (Some "example.com") rebound = (-1, m') /\
    servername (ctx m') = None /\
    error (ctx m') = Some (mk_error "out of memory" None) /\
    clock m' = 3%nat /\ trace m' = trace rebound.
Proof.
  assert (Hc : Z.land (flags (ctx rebound)) (c_TLS_CLIENT no_memory) <> 0)
    by (vm_compute; discriminate).
  assert (Hs : p_strdup no_memory (clock rebound) "example.com" = false)
    by run.
  split; [exact Hc|]. split; [exact Hs|]. split; [run|].
  destruct (out_of_memory_clears_servername no_memory "example.com" rebound
              Hc Hs) as (m' & Hrun & Hctx & Hclock & Htrace).
  exists m'. split; [exact Hrun|].
  rewrite Hctx, Hclock, Htrace. repeat split.
Defined.

Lemma null_servername_keeps_field_witness :
  tls_connect_common quiet None rebound =
    (0, snd (tls_connect_common quiet None rebound)) /\
  servername (ctx (snd (tls_connect_common quiet None rebound))) =
    Some "old.example".
Proof.
  assert (Hrun : tls_connect_common quiet None rebound =
                 (0, snd (tls_connect_common quiet None rebound))) by run.
  split; [exact Hrun|].
  rewrite (proj1 (null_servername_keeps_field quiet rebound _ 0 Hrun)).
  run.
Defined.

Lemma tls_client_sets_role_witness :
  tls_client quiet 0 (Some (ctx server_boot)) =
    Some (set_flags 3 (ctx server_boot)) /\
  Z.land (flags (set_flags 3 (ctx server_boot))) (c_TLS_CLIENT quiet) =
    c_TLS_CLIENT quiet.
Proof.
  assert (Hrun : tls_client quiet 0 (Some (ctx server_boot)) =
                 Some (set_flags 3 (ctx server_boot))) by run.
  split; [exact Hrun|].
  destruct (proj2 (tls_client_sets_role quiet 0 (Some (ctx server_boot)))
              _ Hrun) as (c0 & _ & _ & Hbit & _).
  exact Hbit.
Defined.
